(** * browser.html: the chrome's state-update layer

    A shallow embedding of [src/browser/actions.js] (URL routing of the
    awesomebar input, the blank session, session persistence, the field
    setters) and of the tab handlers of [src/browser/browser.js]
    ([openTab], [navigateTo], [loadURI], [close], [switchTab], the
    awesomebar's [onOpen]), followed by the properties proved of them.

    Layout: the data (plain JavaScript data and Immutable.js data), the
    built-ins the code calls ([JSON], [encodeURIComponent], [localStorage],
    Immutable's [List] and [Map], cursors), the modules of the repository,
    then the theorems. *)

From Stdlib Require Import ZArith Ascii DecimalN DecimalFacts.
From stdpp Require Import base option list strings gmap.

#[local] Set Warnings "-register-all".
#[local] Open Scope Z_scope.

(** ** Data *)

(** Plain JavaScript data, as [JSON.parse] builds it and [toJSON] returns it:
    an object is its list of own properties, in order, without repeated
    keys (the place JavaScript gives to integer-like keys plays no role
    below).  Numbers are the integers; strings are byte strings (the UTF-8
    form of the JavaScript string). *)
Inductive js : Type :=
  | JNull
  | JBool (b : bool)
  | JNum (n : Z)
  | JStr (s : string)
  | JArr (l : list js)
  | JObj (o : list (string * js)).

(** Immutable.js data, as [fromJS] builds it: a [List] is a sequence and a
    [Map] a finite map from property names to values. *)
Inductive value : Type :=
  | VNull
  | VBool (b : bool)
  | VNum (n : Z)
  | VStr (s : string)
  | VList (l : list value)
  | VMap (m : gmap string value).

(** What a JavaScript statement completes with: a value, or a thrown error. *)
Inductive exn : Type := TypeError | SyntaxError.

Inductive completion (A : Type) : Type :=
  | Normal (a : A)
  | Throw (e : exn).
Arguments Normal {A} a.
Arguments Throw {A} e.

#[global] Instance completion_ret : MRet completion := @Normal.
#[global] Instance completion_bind : MBind completion := λ A B f c,
  match c with Normal a => f a | Throw e => Throw e end.

(** [try { body } catch (error) { handler }] *)
Definition try_catch {A} (body : completion A) (handler : exn → completion A)
    : completion A :=
  match body with Normal a => Normal a | Throw e => handler e end.

(** JavaScript's ToBoolean on the data above; a property that is not there
    reads as [undefined], which is falsy. *)
Definition truthy (v : value) : bool :=
  match v with
  | VNull => false
  | VBool b => b
  | VNum n => negb (n =? 0)
  | VStr s => negb (String.eqb s "")
  | VList _ | VMap _ => true
  end.

Definition truthy_opt (o : option value) : bool :=
  match o with Some v => truthy v | None => false end.

(** *** Own properties of a plain object *)

Definition keys (o : list (string * js)) : list string := o.*1.

Fixpoint obj_get (k : string) (o : list (string * js)) : option js :=
  match o with
  | [] => None
  | (k', v) :: o' => if decide (k' = k) then Some v else obj_get k o'
  end.

(** [o[k] = v]: an existing property keeps its place, a new one goes last. *)
Fixpoint obj_set (k : string) (v : js) (o : list (string * js))
    : list (string * js) :=
  match o with
  | [] => [(k, v)]
  | (k', v') :: o' =>
      if decide (k' = k) then (k, v) :: o' else (k', v') :: obj_set k v o'
  end.

Definition obj_of_list (l : list (string * js)) : list (string * js) :=
  foldl (λ o kv, obj_set kv.1 kv.2 o) [] l.

(** No object has a repeated key, at any depth. *)
Inductive js_wf : js → Prop :=
  | wf_null : js_wf JNull
  | wf_bool b : js_wf (JBool b)
  | wf_num n : js_wf (JNum n)
  | wf_str s : js_wf (JStr s)
  | wf_arr l : Forall js_wf l → js_wf (JArr l)
  | wf_obj o : NoDup (keys o) → Forall (λ kv, js_wf kv.2) o → js_wf (JObj o).

(** *** Immutable.js: [fromJS], [toJSON] *)

Fixpoint fromJS (j : js) : value :=
  match j with
  | JNull => VNull
  | JBool b => VBool b
  | JNum n => VNum n
  | JStr s => VStr s
  | JArr l => VList (map fromJS l)
  | JObj o => VMap (list_to_map (map (λ kv, (kv.1, fromJS kv.2)) o))
  end.

(** Immutable 3's [toJSON] converts deeply ([toJS] is its alias). *)
Fixpoint toJS (v : value) : js :=
  match v with
  | VNull => JNull
  | VBool b => JBool b
  | VNum n => JNum n
  | VStr s => JStr s
  | VList l => JArr (map toJS l)
  | VMap m => JObj (map_to_list (toJS <$> m))
  end.

(** [x.toJSON()]: only collections have the method. *)
Definition toJSON (v : value) : completion js :=
  match v with
  | VList _ | VMap _ => Normal (toJS v)
  | _ => Throw TypeError
  end.

Fixpoint value_size (v : value) : nat :=
  match v with
  | VList l => S (foldr (λ x n, value_size x + n)%nat 0%nat l)
  | VMap m => S (map_fold (λ _ x n, value_size x + n)%nat 0%nat m)
  | _ => 1
  end.

(** ** Built-ins *)

(** *** JSON text

    [JSON.stringify] and [JSON.parse] on the data above.  The text is a
    list of characters; [stringify] writes no white space, [parse] accepts
    the JSON grammar.  A number with a fraction or an exponent is no integer
    in general and is not read. *)
Module JSON.

Definition dquote : ascii := "034"%char.
Definition bslash : ascii := "092"%char.

Definition code (c : ascii) : N := N_of_ascii c.

Definition hex_lower (n : N) : ascii :=
  ascii_of_N (if n <? 10 then 48 + n else 87 + n)%N.

(** QuoteJSONString, one character. *)
Definition quote_char (c : ascii) : list ascii :=
  let n := code c in
  if (n =? 34)%N then [bslash; dquote]
  else if (n =? 92)%N then [bslash; bslash]
  else if (n <? 32)%N then
    if (n =? 8)%N then [bslash; "b"%char]
    else if (n =? 12)%N then [bslash; "f"%char]
    else if (n =? 10)%N then [bslash; "n"%char]
    else if (n =? 13)%N then [bslash; "r"%char]
    else if (n =? 9)%N then [bslash; "t"%char]
    else [bslash; "u"%char; "0"%char; "0"%char;
          hex_lower (n / 16); hex_lower (n mod 16)]
  else [c].

Definition quote (s : string) : list ascii :=
  dquote :: flat_map quote_char (String.list_ascii_of_string s) ++ [dquote].

Fixpoint print_uint (u : Decimal.uint) : list ascii :=
  match u with
  | Decimal.Nil => []
  | Decimal.D0 u => "0"%char :: print_uint u
  | Decimal.D1 u => "1"%char :: print_uint u
  | Decimal.D2 u => "2"%char :: print_uint u
  | Decimal.D3 u => "3"%char :: print_uint u
  | Decimal.D4 u => "4"%char :: print_uint u
  | Decimal.D5 u => "5"%char :: print_uint u
  | Decimal.D6 u => "6"%char :: print_uint u
  | Decimal.D7 u => "7"%char :: print_uint u
  | Decimal.D8 u => "8"%char :: print_uint u
  | Decimal.D9 u => "9"%char :: print_uint u
  end.

Definition print_number (n : Z) : list ascii :=
  (if n <? 0 then ["-"%char] else []) ++ print_uint (N.to_uint (Z.abs_N n)).

(** The items of an array or an object, separated by commas. *)
Fixpoint join (items : list (list ascii)) : list ascii :=
  match items with
  | [] => []
  | [x] => x
  | x :: rest => x ++ ","%char :: join rest
  end.

(** A property of an object: its key, a colon, its value. *)
Definition print_member (print : js → list ascii) (kv : string * js)
    : list ascii :=
  quote kv.1 ++ ":"%char :: print kv.2.

Fixpoint print (j : js) : list ascii :=
  match j with
  | JNull => String.list_ascii_of_string "null"
  | JBool true => String.list_ascii_of_string "true"
  | JBool false => String.list_ascii_of_string "false"
  | JNum n => print_number n
  | JStr s => quote s
  | JArr l => "["%char :: join (map print l) ++ ["]"%char]
  | JObj o => "{"%char :: join (map (print_member print) o) ++ ["}"%char]
  end.

Definition stringify (j : js) : string := String.string_of_list_ascii (print j).

(** **** Reading *)

Definition is_ws (c : ascii) : bool :=
  let n := code c in
  ((n =? 32) || (n =? 9) || (n =? 10) || (n =? 13))%N.

Fixpoint skip_ws (s : list ascii) : list ascii :=
  match s with
  | c :: r => if is_ws c then skip_ws r else s
  | [] => []
  end.

Fixpoint literal (word s : list ascii) : option (list ascii) :=
  match word, s with
  | [], _ => Some s
  | w :: word', c :: s' => if Ascii.eqb w c then literal word' s' else None
  | _ :: _, [] => None
  end.

Definition hex_val (c : ascii) : option N :=
  let n := code c in
  if ((48 <=? n) && (n <=? 57))%N then Some (n - 48)%N
  else if ((97 <=? n) && (n <=? 102))%N then Some (n - 87)%N
  else if ((65 <=? n) && (n <=? 70))%N then Some (n - 55)%N
  else None.

Definition hex4 (a b c d : ascii) : option N :=
  x ← hex_val a; y ← hex_val b; z ← hex_val c; w ← hex_val d;
  Some (((x * 16 + y) * 16 + z) * 16 + w)%N.

(** The bytes of a code point. *)
Definition utf8 (cp : N) : list ascii :=
  (if cp <? 128 then [ascii_of_N cp]
   else if cp <? 2048 then
     [ascii_of_N (192 + cp / 64); ascii_of_N (128 + cp mod 64)]
   else if cp <? 65536 then
     [ascii_of_N (224 + cp / 4096); ascii_of_N (128 + (cp / 64) mod 64);
      ascii_of_N (128 + cp mod 64)]
   else
     [ascii_of_N (240 + cp / 262144); ascii_of_N (128 + (cp / 4096) mod 64);
      ascii_of_N (128 + (cp / 64) mod 64); ascii_of_N (128 + cp mod 64)])%N.

Definition is_high (cu : N) : bool := ((55296 <=? cu) && (cu <=? 56319))%N.
Definition is_low (cu : N) : bool := ((56320 <=? cu) && (cu <=? 57343))%N.
Definition pair_point (hi lo : N) : N :=
  (65536 + (hi - 55296) * 1024 + (lo - 56320))%N.

Definition simple_escape (e : ascii) : option ascii :=
  let n := code e in
  if (n =? 34)%N then Some dquote
  else if (n =? 92)%N then Some bslash
  else if (n =? 47)%N then Some "/"%char
  else if (n =? 98)%N then Some "008"%char
  else if (n =? 102)%N then Some "012"%char
  else if (n =? 110)%N then Some "010"%char
  else if (n =? 114)%N then Some "013"%char
  else if (n =? 116)%N then Some "009"%char
  else None.

(** The characters of a string, after its opening quote, up to and
    including the closing one. *)
Fixpoint parse_chars (s : list ascii) : option (list ascii * list ascii) :=
  match s with
  | [] => None
  | c :: r =>
    if (code c =? 34)%N then Some ([], r)
    else if (code c =? 92)%N then
      match r with
      | [] => None
      | e :: r1 =>
        if (code e =? 117)%N then
          match r1 with
          | h1 :: h2 :: h3 :: h4 :: r2 =>
            match hex4 h1 h2 h3 h4 with
            | None => None
            | Some cu =>
              let single :=
                '(t, rest) ← parse_chars r2; Some (utf8 cu ++ t, rest) in
              if is_high cu then
                match r2 with
                | b :: u :: l1 :: l2 :: l3 :: l4 :: r3 =>
                  if ((code b =? 92) && (code u =? 117))%N then
                    match hex4 l1 l2 l3 l4 with
                    | Some lo =>
                      if is_low lo then
                        '(t, rest) ← parse_chars r3;
                        Some (utf8 (pair_point cu lo) ++ t, rest)
                      else single
                    | None => single
                    end
                  else single
                | _ => single
                end
              else single
            end
          | _ => None
          end
        else
          ch ← simple_escape e;
          '(t, rest) ← parse_chars r1; Some (ch :: t, rest)
      end
    else if (code c <? 32)%N then None
    else '(t, rest) ← parse_chars r; Some (c :: t, rest)
  end.

Definition digit (c : ascii) : option (Decimal.uint → Decimal.uint) :=
  match code c with
  | 48%N => Some Decimal.D0 | 49%N => Some Decimal.D1 | 50%N => Some Decimal.D2
  | 51%N => Some Decimal.D3 | 52%N => Some Decimal.D4 | 53%N => Some Decimal.D5
  | 54%N => Some Decimal.D6 | 55%N => Some Decimal.D7 | 56%N => Some Decimal.D8
  | 57%N => Some Decimal.D9
  | _ => None
  end.

Fixpoint parse_uint (s : list ascii) : Decimal.uint * list ascii :=
  match s with
  | [] => (Decimal.Nil, [])
  | c :: r =>
    match digit c with
    | Some d => let '(u, r') := parse_uint r in (d u, r')
    | None => (Decimal.Nil, s)
    end
  end.

(** A fraction or an exponent would follow here. *)
Definition more_number (s : list ascii) : bool :=
  match s with
  | c :: _ => ((code c =? 46) || (code c =? 101) || (code c =? 69))%N
  | [] => false
  end.

#[global] Instance uint_eq_dec : EqDecision Decimal.uint := Decimal.uint_eq_dec.

(** The digits of a number, after its sign. *)
Definition parse_int (neg : bool) (s : list ascii) : option (js * list ascii) :=
  let '(u, r) := parse_uint s in
  if decide (Decimal.unorm u = u) then
    if more_number r then None
    else
      let n := Z.of_N (N.of_uint u) in
      Some (JNum (if neg then - n else n), r)
  else None.

Definition parse_number (s : list ascii) : option (js * list ascii) :=
  match s with
  | c :: r => if (code c =? 45)%N then parse_int true r else parse_int false s
  | [] => None
  end.

Fixpoint parse_value (fuel : nat) (s : list ascii) : option (js * list ascii) :=
  match fuel with
  | O => None
  | S fuel =>
    match skip_ws s with
    | [] => None
    | c :: r =>
      if (code c =? 110)%N then
        r' ← literal (String.list_ascii_of_string "ull") r; Some (JNull, r')
      else if (code c =? 116)%N then
        r' ← literal (String.list_ascii_of_string "rue") r; Some (JBool true, r')
      else if (code c =? 102)%N then
        r' ← literal (String.list_ascii_of_string "alse") r;
        Some (JBool false, r')
      else if (code c =? 34)%N then
        '(t, r') ← parse_chars r; Some (JStr (String.string_of_list_ascii t), r')
      else if (code c =? 91)%N then
        match skip_ws r with
        | c' :: r' =>
          if (code c' =? 93)%N then Some (JArr [], r')
          else '(l, r'') ← parse_elements fuel r; Some (JArr l, r'')
        | [] => None
        end
      else if (code c =? 123)%N then
        match skip_ws r with
        | c' :: r' =>
          if (code c' =? 125)%N then Some (JObj [], r')
          else '(l, r'') ← parse_members fuel r; Some (JObj (obj_of_list l), r'')
        | [] => None
        end
      else parse_number (c :: r)
    end
  end
with parse_elements (fuel : nat) (s : list ascii)
    : option (list js * list ascii) :=
  match fuel with
  | O => None
  | S fuel =>
    '(v, r) ← parse_value fuel s;
    match skip_ws r with
    | c :: r' =>
      if (code c =? 44)%N then
        '(l, r'') ← parse_elements fuel r'; Some (v :: l, r'')
      else if (code c =? 93)%N then Some ([v], r')
      else None
    | [] => None
    end
  end
with parse_members (fuel : nat) (s : list ascii)
    : option (list (string * js) * list ascii) :=
  match fuel with
  | O => None
  | S fuel =>
    match skip_ws s with
    | c :: r =>
      if (code c =? 34)%N then
        '(k, r1) ← parse_chars r;
        match skip_ws r1 with
        | c1 :: r2 =>
          if (code c1 =? 58)%N then
            '(v, r3) ← parse_value fuel r2;
            let kv := (String.string_of_list_ascii k, v) in
            match skip_ws r3 with
            | c3 :: r4 =>
              if (code c3 =? 44)%N then
                '(l, r5) ← parse_members fuel r4; Some (kv :: l, r5)
              else if (code c3 =? 125)%N then Some ([kv], r4)
              else None
            | [] => None
            end
          else None
        | [] => None
        end
      else None
    | [] => None
    end
  end.

(** [JSON.parse(text)]: one value, white space around it, nothing else. *)
Definition parse (text : string) : completion js :=
  let s := String.list_ascii_of_string text in
  match parse_value (S (length s)) s with
  | Some (j, r) =>
    match skip_ws r with [] => Normal j | _ :: _ => Throw SyntaxError end
  | None => Throw SyntaxError
  end.

End JSON.

(** *** [encodeURIComponent]

    On a well-formed string: every byte of its UTF-8 form that is not an
    unreserved character is written as a percent sign and two upper-case
    hexadecimal digits. *)
Definition unreserved (c : ascii) : bool :=
  let n := N_of_ascii c in
  (((65 <=? n) && (n <=? 90)) || ((97 <=? n) && (n <=? 122))
   || ((48 <=? n) && (n <=? 57))
   || (n =? 45) || (n =? 95) || (n =? 46) || (n =? 33) || (n =? 126)
   || (n =? 42) || (n =? 39) || (n =? 40) || (n =? 41))%N.

Definition hex_upper (n : N) : ascii :=
  ascii_of_N (if n <? 10 then 48 + n else 55 + n)%N.

Definition percent (c : ascii) : string :=
  let n := N_of_ascii c in
  String "%" (String (hex_upper (n / 16)) (String (hex_upper (n mod 16)) "")).

Fixpoint encodeURIComponent (s : string) : string :=
  match s with
  | EmptyString => ""
  | String c r =>
      (if unreserved c then String c "" else percent c) +:+ encodeURIComponent r
  end.

(** *** [localStorage]

    The store maps keys to strings; a key that is not there reads as
    [undefined], which a built-in that expects a string turns into the
    string "undefined". *)
Definition ToString (o : option string) : string :=
  match o with Some s => s | None => "undefined" end.

(** *** Property access on plain data, in strict mode *)

(** [o[k] = v] *)
Definition set_property (o : js) (k : string) (v : js) : completion js :=
  match o with
  | JObj props => Normal (JObj (obj_set k v props))
  | JArr l => Normal (JArr l) (* a named property is none of its items *)
  | JNull | JBool _ | JNum _ | JStr _ => Throw TypeError
  end.

(** [o[k]], for a key that no built-in prototype defines; [None] is
    [undefined]. *)
Definition get_property (o : js) (k : string) : completion (option js) :=
  match o with
  | JObj props => Normal (obj_get k props)
  | JNull => Throw TypeError
  | JArr _ | JBool _ | JNum _ | JStr _ => Normal None
  end.

(** [o[k1][k2] = v]: the inner object is shared, so [o] sees the change. *)
Definition set_member (o : js) (k1 k2 : string) (v : js) : completion js :=
  inner ← get_property o k1;
  match inner with
  | None => Throw TypeError
  | Some inner =>
      inner' ← set_property inner k2 v;
      match o with
      | JObj props => Normal (JObj (obj_set k1 inner' props))
      | _ => Normal o
      end
  end.

(** *** Immutable.js collections *)

(** [list.get(index)]: a negative index counts from the end. *)
Definition List_get (l : list value) (index : Z) : option value :=
  let i := if index <? 0 then Z.of_nat (length l) + index else index in
  if i <? 0 then None else l !! Z.to_nat i.

Definition List_last (l : list value) : option value := last l.

(** [list.set(index, v)]: past the end the list grows up to [index]; the
    holes in between are written [VNull] (the code sets index 0 only, where
    there is none). *)
Definition List_set (l : list value) (index : nat) (v : value) : list value :=
  if decide (index < length l)%nat then <[index := v]> l
  else l ++ replicate (index - length l) VNull ++ [v].

(** [map.merge(obj)]: the entries of [obj] win. *)
Definition Map_merge (m obj : gmap string value) : gmap string value := obj ∪ m.

(** *** Cursors

    The application state is one immutable tree, the root; a cursor is a
    path into it.  Reading through a cursor reads the current root, and an
    update through a cursor replaces the root by one that differs at the
    path.  A handler is what an event does to the root; [None] stands for a
    path that does not resolve, which is outside this model. *)
Inductive key : Type := Field (name : string) | Index (i : nat).

Definition handler : Type := value → option value.

Definition and_then (h1 h2 : handler) : handler := λ root, h1 root ≫= h2.
Infix ">>>" := and_then (at level 61, left associativity).

Module Cursor.

Definition get_key (v : value) (k : key) : option value :=
  match v, k with
  | VMap m, Field f => m !! f
  | VList l, Index i => l !! i
  | _, _ => None
  end.

Definition set_key (v : value) (k : key) (x : value) : option value :=
  match v, k with
  | VMap m, Field f => Some (VMap (<[f := x]> m))
  | VList l, Index i => Some (VList (List_set l i x))
  | _, _ => None
  end.

Fixpoint getIn (v : value) (p : list key) : option value :=
  match p with
  | [] => Some v
  | k :: p' => get_key v k ≫= λ child, getIn child p'
  end.

Fixpoint updateIn (v : value) (p : list key) (f : value → option value)
    : option value :=
  match p with
  | [] => f v
  | k :: p' =>
      child ← get_key v k; child' ← updateIn child p' f; set_key v k child'
  end.

(** [cursor.cursor(k)] *)
Definition cursor (c : list key) (k : key) : list key := c ++ [k].

(** [cursor.get(k)]; [None] is [undefined]. *)
Definition get (c : list key) (k : string) (root : value) : option value :=
  getIn root (c ++ [Field k]).

(** [cursor.update(f)] *)
Definition update (c : list key) (f : value → option value) : handler :=
  λ root, updateIn root c f.

(** [cursor.set(k, x)] *)
Definition set (c : list key) (k : string) (x : value) : handler :=
  update c (λ v, set_key v (Field k) x).

(** [cursor.merge(obj)] *)
Definition merge (c : list key) (obj : gmap string value) : handler :=
  update c (λ v, match v with
                 | VMap m => Some (VMap (Map_merge m obj))
                 | _ => None
                 end).

End Cursor.

(** An updater of a [List], as [cursor.update] applies it. *)
Definition on_List (f : list value → list value) (v : value) : option value :=
  match v with VList l => Some (VList (f l)) | _ => None end.

(** ** The repository's modules *)

(** *** [util/url] and [dashboard/actions]

    Both modules are kept abstract: what the code below calls of them is
    a parameter. *)
Class Url : Type := {
  isNotURL : string → bool;
  hasScheme : string → bool
}.

Class Dashboard : Type := {
  initDashboard : js → value
}.

(** *** [web-viewer/actions] *)

(** The fields of a blank web viewer, kept abstract. *)
Class Viewer : Type := {
  blank : gmap string value
}.

(** Modelled from the spec: [open] of [web-viewer/actions], whose code is
    missing.  It makes a web viewer that carries the given options, every
    other field being that of a blank viewer. *)
Definition open `{!Viewer} (options : gmap string value) : value :=
  VMap (options ∪ blank).

(** *** [deck/actions] *)
Module Deck.

(** [arrange], [select] and [activate] are kept abstract. *)
Class Ops : Type := {
  arrange : list value → list value;
  select : list value → value → list value;
  activate : list value → list value
}.

(** Modelled from the spec: [isPinned] of [deck/actions], whose code is
    missing.  An item is pinned when its [isPinned] field is truthy. *)
Definition isPinned (item : value) : bool :=
  truthy_opt (Cursor.get_key item (Field "isPinned")).

Definition isntPinned (item : value) : bool := negb (isPinned item).

(** Modelled from the spec: [insertBefore] of [deck/actions], whose code is
    missing.  The item goes immediately before the first item that matches
    [p], and last when none does. *)
Fixpoint insertBefore (items : list value) (item : value) (p : value → bool)
    : list value :=
  match items with
  | [] => [item]
  | x :: rest =>
      if p x then item :: x :: rest else x :: insertBefore rest item p
  end.

(** Modelled from the spec: [remove] of [deck/actions], whose code is
    missing.  The first item that matches [p] is removed. *)
Fixpoint remove (items : list value) (p : value → bool) : list value :=
  match items with
  | [] => []
  | x :: rest => if p x then rest else x :: remove rest p
  end.

End Deck.

(** *** [src/browser/actions.js] *)
Module Actions.

Definition version : string := "0.0.3".

Definition makeSearchURL (input : string) : string :=
  "https://duckduckgo.com/?q=" +:+ encodeURIComponent input.

Definition readInputURL `{!Url} (input : string) : string :=
  if isNotURL input then makeSearchURL input
  else if negb (hasScheme input) then "http://" +:+ input
  else input.

Definition tile (image uri title : string) : js :=
  JObj [("image", JStr image); ("uri", JStr uri); ("title", JStr title)].

Definition dashboardItems : js :=
  JArr [
    tile "tiles/facebook.com.png" "https://facebook.com" "facebook.com";
    tile "tiles/youtube.com.png" "https://youtube.com" "youtube.com";
    tile "tiles/amazon.com.png" "https://amazon.com" "amazon.com";
    tile "tiles/wikipedia.org.png" "https://wikipedia.org" "wikipedia.org";
    tile "tiles/twitter.com.png" "https://twitter.com" "twitter.com";
    tile "tiles/mail.google.com.png" "https://mail.google.com" "mail.google.com";
    tile "tiles/nytimes.com.png" "https://nytimes.com" "nytimes.com";
    tile "tiles/qz.com.png" "http://qz.com" "qz.com";
    tile "tiles/github.com.png" "https://github.com" "github.com";
    tile "tiles/dropbox.com.png" "https://dropbox.com" "dropbox.com";
    tile "tiles/linkedin.com.png" "https://linkedin.com" "linkedin.com";
    tile "tiles/yahoo.com.png" "https://yahoo.com" "yahoo.com"
  ].

(** The blank session; [hasFocus] is what [document.hasFocus()] answers. *)
Definition resetSession `{!Viewer, !Dashboard} (hasFocus : bool) : value :=
  VMap {[
    "isDocumentFocused" := VBool hasFocus;
    "input" := VMap {[ "value" := VStr ""; "isFocused" := VBool false ]};
    "tabStrip" := VMap {[ "isActive" := VBool false ]};
    "dashboard" := initDashboard (JObj [("items", dashboardItems)]);
    "rfa" := VMap {[ "id" := VNum (-1) ]};
    "suggestions" :=
      VMap {[ "selectedIndex" := VNum (-1); "list" := VList [] ]};
    "webViewers" :=
      VList [open {[ "id" := VStr "about:blank";
                     "isPinned" := VBool true;
                     "isSelected" := VBool true;
                     "isActive" := VBool true;
                     "isFocused" := VBool false ]}]
  ]}.

Definition session_key : string := "session@" +:+ version.

(** The stored session, or [null]. *)
Definition readSession (localStorage : gmap string string) : completion value :=
  try_catch
    (j ← JSON.parse (ToString (localStorage !! session_key)); mret (fromJS j))
    (λ error, mret VNull).

(** The store after the call, unless a statement throws. *)
Definition writeSession (session : value) (localStorage : gmap string string)
    : completion (gmap string string) :=
  session ← toJSON session;
  session ← set_property session "appUpdateAvailable" (JBool false);
  session ← set_member session "rfa" "id" (JNum (-1));
  mret (<[session_key := JSON.stringify session]> localStorage).

Definition focus (focusable : gmap string value) : gmap string value :=
  <["isFocused" := VBool true]> focusable.

Definition blur (focusable : gmap string value) : gmap string value :=
  <["isFocused" := VBool false]> focusable.

Definition select (editable : gmap string value) : gmap string value :=
  <["selection" := VMap {[ "all" := VBool true ]}]> editable.

Definition showTabStrip (tabStripCursor : gmap string value)
    : gmap string value :=
  <["isActive" := VBool true]> tabStripCursor.

Definition hideTabStrip (tabStripCursor : gmap string value)
    : gmap string value :=
  <["isActive" := VBool false]> tabStripCursor.

End Actions.

(** *** [src/browser/browser.js] *)
Module Browser.

(** [isPinned(cursor)]: the test reads the item under the cursor. *)
Definition isPinned (c : list key) (root : value) : bool :=
  match Cursor.getIn root c with
  | Some item => Deck.isPinned item
  | None => false
  end.

Definition openTab `{!Viewer} (uri : string) (items : list value) : list value :=
  Deck.insertBefore items
    (open {[ "uri" := VStr uri;
             "isSelected" := VBool true;
             "isFocused" := VBool true;
             "isActive" := VBool true ]})
    Deck.isntPinned.

Definition navigateTo `{!Url, !Viewer} (webViewersCursor webViewerCursor : list key)
    (location : string) : handler := λ root,
  let uri := Actions.readInputURL location in
  if isPinned webViewerCursor root then
    (Cursor.update webViewersCursor (on_List (openTab uri))
     >>> Cursor.set webViewerCursor "userInput" (VStr "")) root
  else
    Cursor.merge webViewerCursor
      {[ "uri" := VStr uri; "isFocused" := VBool true ]} root.

(** Curried: applied to a viewer alone it is a function that awaits the
    URI. *)
Definition loadURI (webViewer : list key) (uri : string) : handler :=
  Cursor.merge webViewer {[ "uri" := VStr uri; "isFocused" := VBool true ]}.

Definition close `{!Viewer} (p : value → bool) (items : list value) : list value :=
  if decide (1 < length items)%nat then Deck.remove items p
  else List_set items 0 (open {[ "isSelected" := VBool true;
                                 "isActive" := VBool true ]}).

Definition switchTab `{!Deck.Ops} (items : list value) (to : option value)
    : list value :=
  if truthy_opt to then
    match to with
    | Some item => Deck.activate (Deck.select items item)
    | None => items
    end
  else items.

Definition toIndex `{!Deck.Ops} (index : Z) (items : list value) : list value :=
  switchTab items (List_get (Deck.arrange items) index).

Definition toLast `{!Deck.Ops} (items : list value) : list value :=
  switchTab items (List_last (Deck.arrange items)).

Definition toDashboard `{!Deck.Ops} : list value → list value := toIndex 0.

(** The awesomebar's [onOpen].  In the second branch [loadURI] is applied
    to the cursor alone; the function it returns is dropped. *)
Definition Awesomebar_onOpen `{!Viewer}
    (webViewersCursor activeWebViewerCursor : list key) (uri : string)
    : handler := λ root,
  if isPinned activeWebViewerCursor root then
    Cursor.update webViewersCursor (on_List (openTab uri)) root
  else
    let _ : string → handler := loadURI activeWebViewerCursor in
    Some root.

(** The cursors the [Browser] component hands to its handlers. *)
Definition webViewersCursor : list key := [Field "webViewers"].

Definition webViewerCursor (index : nat) : list key :=
  Cursor.cursor webViewersCursor (Index index).

End Browser.

(** *** [src/browser/index.js]

    The state the browser is first rendered with:
    [readSession() || resetSession()]. *)
Module Index.

Definition initialState `{!Viewer, !Dashboard}
    (localStorage : gmap string string) (hasFocus : bool) : completion value :=
  session ← Actions.readSession localStorage;
  if truthy session then mret session else mret (Actions.resetSession hasFocus).

End Index.

(** ** Sample parameters and states

    Concrete instances of the abstract modules, and a few states, for
    evaluating the definitions above. *)
Module Sample.

Definition has_dot (s : string) : bool :=
  existsb (λ c, Ascii.eqb c "."%char) (String.list_ascii_of_string s).

Definition url : Url := {|
  isNotURL input := negb (has_dot input);
  hasScheme input :=
    String.prefix "http://" input || String.prefix "https://" input
|}.

Definition dashboard : Dashboard := {| initDashboard := fromJS |}.

Definition viewer : Viewer := {|
  blank := {[ "id" := VStr "web-viewer/0";
              "uri" := VNull;
              "userInput" := VStr "";
              "zoom" := VNum 1;
              "isPinned" := VBool false;
              "isSelected" := VBool false;
              "isActive" := VBool false;
              "isFocused" := VBool false ]}
|}.

Definition field_is (k : string) (item : value) : bool :=
  truthy_opt (Cursor.get_key item (Field k)).

Definition put (k : string) (x : value) (item : value) : value :=
  match item with VMap m => VMap (<[k := x]> m) | _ => item end.

Definition same_id (a b : value) : bool :=
  match Cursor.get_key a (Field "id"), Cursor.get_key b (Field "id") with
  | Some (VStr x), Some (VStr y) => String.eqb x y
  | _, _ => false
  end.

Definition deck : Deck.Ops := {|
  Deck.arrange items := items;
  Deck.select items item :=
    map (λ x, put "isSelected" (VBool (same_id x item)) x) items;
  Deck.activate items :=
    map (λ x, put "isActive" (VBool (field_is "isSelected" x)) x) items
|}.

(** The dashboard's viewer, pinned and active. *)
Definition home : value :=
  @open viewer {[ "id" := VStr "about:blank";
                  "isPinned" := VBool true;
                  "isSelected" := VBool true;
                  "isActive" := VBool true;
                  "userInput" := VStr "typed" ]}.

(** A page's viewer, not pinned. *)
Definition page : value :=
  @open viewer {[ "id" := VStr "web-viewer/1";
                  "uri" := VStr "http://old.example/";
                  "userInput" := VStr "old.example" ]}.

(** The root of a running session with the given deck. *)
Definition root (webViewers : list value) : gmap string value :=
  {[ "rfa" := VMap {[ "id" := VNum 7 ]};
     "appUpdateAvailable" := VBool true;
     "input" := VMap {[ "value" := VStr "x"; "isFocused" := VBool true ]};
     "webViewers" := VList webViewers ]}.

Definition session (webViewers : list value) : value := VMap (root webViewers).

End Sample.

(** ** Vocabulary of the statements *)

(** A session state: the root map [m], with its [rfa] record [r]. *)
Definition session_state (m r : gmap string value) : Prop :=
  m !! "rfa" = Some (VMap r).

(** What [writeSession] hands to [JSON.stringify] for a session [m] whose
    [rfa] record is [r]. *)
Definition saved (m r : gmap string value) : js :=
  JObj (obj_set "rfa"
          (JObj (obj_set "id" (JNum (-1)) (map_to_list (toJS <$> r))))
          (obj_set "appUpdateAvailable" (JBool false)
             (map_to_list (toJS <$> m)))).

(** [f] sets the field [k] to [x], touches no other field, and is
    idempotent. *)
Definition sets_only (f : gmap string value → gmap string value)
    (k : string) (x : value) : Prop :=
  ∀ m, f m !! k = Some x
       ∧ (∀ k', k' ≠ k → f m !! k' = m !! k')
       ∧ f (f m) = f m.

(** What may follow a value inside a text that [JSON.print] wrote: the end,
    a comma, or a closing bracket or brace. *)
Definition follows (rest : list ascii) : Prop :=
  match rest with
  | [] => True
  | c :: _ => JSON.code c = 44%N ∨ JSON.code c = 93%N ∨ JSON.code c = 125%N
  end.

(** A number starts with a minus sign or a digit. *)
Definition number_head (c : ascii) : bool :=
  ((JSON.code c =? 45)
   || ((48 <=? JSON.code c) && (JSON.code c <=? 57)))%N.

(** [JSON.parse_value] reads back what [JSON.print] wrote of [j], given
    fuel past the length of the text. *)
Definition reads (j : js) : Prop :=
  ∀ fuel rest, (length (JSON.print j) < fuel)%nat → follows rest →
    JSON.parse_value fuel (JSON.print j ++ rest) = Some (j, rest).

(** ** More of the code *)

(** The bytes a percent-encoded text stands for; [None] when a percent sign
    is not followed by two hexadecimal digits. *)
Fixpoint percent_decode (s : string) : option string :=
  match s with
  | EmptyString => Some ""
  | String c r =>
    if Ascii.eqb c "%"%char then
      match r with
      | String h1 (String h2 r') =>
          x ← JSON.hex_val h1; y ← JSON.hex_val h2;
          t ← percent_decode r';
          Some (String (ascii_of_N (x * 16 + y)) t)
      | _ => None
      end
    else t ← percent_decode r; Some (String c t)
  end.

(** An updater of a [Map], as [cursor.update] applies it. *)
Definition on_Map (f : gmap string value → gmap string value) (v : value)
    : option value :=
  match v with VMap m => Some (VMap (f m)) | _ => None end.

(** The session as [readSession] returns it after [writeSession] stored
    the session [m] whose [rfa] record is [r]. *)
Definition restored (m r : gmap string value) : gmap string value :=
  <["rfa" := VMap (<["id" := VNum (-1)]> r)]>
    (<["appUpdateAvailable" := VBool false]> m).

(** *** [browser.js]: the [Browser] component

    What the component computes from the state when it renders, and the
    handlers it installs.  The window title and the theme come from
    modules that are kept out. *)
Module Component.

(** [indexOfSelected] and [indexOfActive] of [deck/actions] are kept
    abstract. *)
Class Find : Type := {
  indexOfSelected : list value → Z;
  indexOfActive : list value → Z
}.

Definition inputCursor : list key := [Field "input"].
Definition tabStripCursor : list key := [Field "tabStrip"].

(** The values of the render that decide what is shown; a class of the
    main element, or an attribute, is set when its value is truthy. *)
Record rendered : Type := {
  isDashboardActive : bool;
  isAwesomebarActive : bool;
  isTabStripVisible : bool;
  windowFocused : bool;
  showtabstrip : bool;
  scrollable : bool;
  tabstripkillzone_hidden : bool;
  dashboard_hidden : bool;
  webViewers_hidden : bool;
  appupdatebanner_active : bool
}.

(** [activeWebViewerCursor.get('uri') === null] *)
Definition uri_is_null (activeWebViewer : option value) : bool :=
  match activeWebViewer ≫= λ viewer, Cursor.get_key viewer (Field "uri") with
  | Some VNull => true
  | _ => false
  end.

(** [dashboard.get('items')] needs a collection for [dashboard]. *)
Definition has_get (o : option value) : bool :=
  match o with Some (VList _) | Some (VMap _) => true | _ => false end.

(** The render; [None] where the component throws: when [webViewers] is
    no list or [dashboard] no collection. *)
Definition render `{!Find} (immutableState : value) : option rendered :=
  match Cursor.get_key immutableState (Field "webViewers") with
  | Some (VList webViewers) =>
    if negb (has_get (Cursor.get_key immutableState (Field "dashboard")))
    then None else
    let activeIndex := indexOfActive webViewers in
    let isDashboardActive := uri_is_null (List_get webViewers activeIndex) in
    let isAwesomebarActive :=
      truthy_opt (Cursor.get inputCursor "isFocused" immutableState) in
    let isTabStripVisible :=
      isDashboardActive
      || (truthy_opt (Cursor.get tabStripCursor "isActive" immutableState)
          && negb isAwesomebarActive) in
    Some {|
      isDashboardActive := isDashboardActive;
      isAwesomebarActive := isAwesomebarActive;
      isTabStripVisible := isTabStripVisible;
      windowFocused :=
        truthy_opt (Cursor.get_key immutableState (Field "isDocumentFocused"));
      showtabstrip := isTabStripVisible;
      scrollable :=
        negb (truthy_opt (Cursor.get inputCursor "isFocused" immutableState))
        && negb isTabStripVisible;
      tabstripkillzone_hidden := negb isTabStripVisible || isDashboardActive;
      dashboard_hidden := negb isDashboardActive;
      webViewers_hidden := isDashboardActive;
      appupdatebanner_active :=
        truthy_opt (Cursor.get_key immutableState (Field "appUpdateAvailable"))
    |}
  | _ => None
  end.

(** The same render, but for [windowFocused]. *)
Definition with_windowFocused (focused : bool) (r : rendered) : rendered := {|
  isDashboardActive := isDashboardActive r;
  isAwesomebarActive := isAwesomebarActive r;
  isTabStripVisible := isTabStripVisible r;
  windowFocused := focused;
  showtabstrip := showtabstrip r;
  scrollable := scrollable r;
  tabstripkillzone_hidden := tabstripkillzone_hidden r;
  dashboard_hidden := dashboard_hidden r;
  webViewers_hidden := webViewers_hidden r;
  appupdatebanner_active := appupdatebanner_active r
|}.

(** [onDocumentFocus], [onDocumentBlur], [onAppUpdateAvailable] *)
Definition onDocumentFocus : handler :=
  Cursor.set [] "isDocumentFocused" (VBool true).

Definition onDocumentBlur : handler :=
  Cursor.set [] "isDocumentFocused" (VBool false).

Definition onAppUpdateAvailable : handler :=
  Cursor.set [] "appUpdateAvailable" (VBool true).

(** [onDocumentUnload]: the state goes to the store. *)
Definition onDocumentUnload (immutableState : value)
    (localStorage : gmap string string) : completion (gmap string string) :=
  Actions.writeSession immutableState localStorage.

(** ['accel l'] of [onNavigation], applied to the input's cursor:
    [compose(selectField, focus)], so [focus] runs first. *)
Definition onNavigation_accel_l : handler :=
  Cursor.update inputCursor (on_Map Actions.focus)
  >>> Cursor.update inputCursor (on_Map Actions.select).

(** ['accel t'] of [onNavigation]. *)
Definition onNavigation_accel_t : handler :=
  Cursor.update inputCursor (on_Map Actions.focus).

(** The bindings of [onTabStripKeyDown] and [onTabStripKeyUp], applied to
    the tab strip's cursor, and [onMouseEnter] of the kill zone. *)
Definition onTabStripKeyDown : handler :=
  Cursor.update tabStripCursor (on_Map Actions.showTabStrip).

Definition onTabStripKeyUp : handler :=
  Cursor.update tabStripCursor (on_Map Actions.hideTabStrip).

(** [onOpen] of the dashboard and of the deck of web viewers. *)
Definition onOpen `{!Viewer} (uri : string) : handler :=
  Cursor.update Browser.webViewersCursor (on_List (Browser.openTab uri)).

End Component.

(** Sample instance: the first item whose field is truthy, or -1. *)
Fixpoint findIndex (p : value → bool) (items : list value) : Z :=
  match items with
  | [] => -1
  | x :: rest =>
      if p x then 0
      else let i := findIndex p rest in if i <? 0 then -1 else i + 1
  end.

Definition sample_find : Component.Find := {|
  Component.indexOfSelected := findIndex (Sample.field_is "isSelected");
  Component.indexOfActive := findIndex (Sample.field_is "isActive")
|}.

(** A root with a tab strip, showing the dashboard. *)
Definition sample_root : gmap string value :=
  <["dashboard" := VMap {[ "items" := VList [] ]}]>
    (<["tabStrip" := VMap {[ "isActive" := VBool true ]}]>
       (Sample.root [Sample.home; Sample.page])).

(** The same with a page active and the awesomebar without focus. *)
Definition sample_page_root : gmap string value :=
  <["input" := VMap {[ "value" := VStr ""; "isFocused" := VBool false ]}]>
    (<["dashboard" := VMap {[ "items" := VList [] ]}]>
       (<["tabStrip" := VMap {[ "isActive" := VBool true ]}]>
          (Sample.root [Sample.put "isActive" (VBool false) Sample.home;
                        Sample.put "isActive" (VBool true) Sample.page]))).

(** * Properties *)

(** ** The data *)

Lemma js_ind' (P : js → Prop) :
  P JNull → (∀ b, P (JBool b)) → (∀ n, P (JNum n)) → (∀ s, P (JStr s)) →
  (∀ l, Forall P l → P (JArr l)) →
  (∀ o, Forall (λ kv, P kv.2) o → P (JObj o)) →
  ∀ j, P j.
Proof.
  intros Hnull Hbool Hnum Hstr Harr Hobj.
  fix IH 1. intros [ | b | n | s | l | o];
    [apply Hnull | apply Hbool | apply Hnum | apply Hstr | | ].
  - apply Harr. induction l as [|x l IHl]; constructor; [apply IH | apply IHl].
  - apply Hobj. induction o as [|[k x] o IHo]; constructor; [apply IH | apply IHo].
Qed.

Lemma value_size_elem x l :
  x ∈ l → (value_size x < value_size (VList l))%nat.
Proof.
  simpl. induction 1 as [x l|x y l _ IH]; simpl; lia.
Qed.

Lemma value_size_lookup (m : gmap string value) k x :
  m !! k = Some x → (value_size x < value_size (VMap m))%nat.
Proof.
  intros Hk. simpl. rewrite map_fold_foldr.
  apply elem_of_map_to_list in Hk.
  induction (map_to_list m) as [|[k' y] l IH]; [by apply elem_of_nil in Hk|].
  apply elem_of_cons in Hk as [[= <- <-]|Hk]; simpl; [lia|].
  specialize (IH Hk). lia.
Qed.

Lemma value_ind' (P : value → Prop) :
  P VNull → (∀ b, P (VBool b)) → (∀ n, P (VNum n)) → (∀ s, P (VStr s)) →
  (∀ l, Forall P l → P (VList l)) →
  (∀ m, map_Forall (λ _, P) m → P (VMap m)) →
  ∀ v, P v.
Proof.
  intros Hnull Hbool Hnum Hstr Hlist Hmap v.
  remember (value_size v) as n eqn:Hn. revert v Hn.
  induction n as [n IH] using lt_wf_ind. intros [ | b | z | s | l | m] ->; auto.
  - apply Hlist, Forall_forall. intros x Hx.
    eapply IH; [|reflexivity]. by apply value_size_elem.
  - apply Hmap. intros k x Hk.
    eapply IH; [|reflexivity]. by eapply value_size_lookup.
Qed.

(** *** Own properties *)

Lemma obj_set_fresh k v o : k ∉ keys o → obj_set k v o = o ++ [(k, v)].
Proof.
  induction o as [|[k' v'] o IH]; simpl; [done|].
  rewrite not_elem_of_cons. intros [? ?].
  rewrite decide_False by done. by rewrite IH.
Qed.

Lemma obj_of_list_NoDup o : NoDup (keys o) → obj_of_list o = o.
Proof.
  unfold obj_of_list. intros Hnd.
  assert (∀ acc, NoDup (keys (acc ++ o)) →
    foldl (λ o kv, obj_set kv.1 kv.2 o) acc o = acc ++ o) as H.
  { clear Hnd. induction o as [|[k v] o IH]; intros acc Hnd; simpl.
    - by rewrite app_nil_r.
    - unfold keys in Hnd. rewrite fmap_app, fmap_cons in Hnd. simpl in Hnd.
      rewrite obj_set_fresh.
      + rewrite IH; [by rewrite <- app_assoc|].
        unfold keys. rewrite <- app_assoc, fmap_app. simpl. done.
      + apply NoDup_app in Hnd as (_ & Hnd & _). intros Hin.
        apply (Hnd k Hin). left. }
  by apply (H []).
Qed.

Lemma obj_get_set k k' v o :
  obj_get k' (obj_set k v o) = if decide (k = k') then Some v else obj_get k' o.
Proof.
  induction o as [|[k0 v0] o IH]; simpl.
  - by destruct (decide (k = k')).
  - destruct (decide (k0 = k)) as [->|Hne]; simpl.
    + by destruct (decide (k = k')).
    + destruct (decide (k0 = k')) as [->|Hne'].
      * by rewrite decide_False by done.
      * done.
Qed.

Lemma obj_set_keys k v o :
  k ∈ keys o → keys (obj_set k v o) = keys o.
Proof.
  induction o as [|[k0 v0] o IH]; simpl; [by intros ?%elem_of_nil|].
  destruct (decide (k0 = k)) as [->|Hne]; [done|].
  intros [?|?]%elem_of_cons; [done|]. simpl. f_equal. by apply IH.
Qed.

Lemma obj_set_NoDup k v o : NoDup (keys o) → NoDup (keys (obj_set k v o)).
Proof.
  intros Hnd. destruct (decide (k ∈ keys o)) as [Hin|Hnin].
  - by rewrite obj_set_keys.
  - rewrite obj_set_fresh by done. unfold keys. rewrite fmap_app. simpl.
    apply NoDup_app. split_and!; [done| |apply NoDup_singleton].
    intros x Hx ->%list_elem_of_singleton. done.
Qed.

Lemma obj_get_list_to_map k o :
  obj_get k o = (list_to_map o : gmap string js) !! k.
Proof.
  induction o as [|[k' v] o IH]; simpl; [done|].
  destruct (decide (k' = k)) as [->|Hne].
  - by rewrite lookup_insert_eq.
  - by rewrite lookup_insert_ne.
Qed.

Lemma obj_set_Forall (P : js → Prop) k v o :
  P v → Forall (λ kv, P kv.2) o → Forall (λ kv, P kv.2) (obj_set k v o).
Proof.
  intros Hv. induction 1 as [|[k' v'] o Hx Ho IH]; simpl.
  - by constructor.
  - destruct (decide (k' = k)); constructor; auto.
Qed.

Lemma obj_set_wf k v o : js_wf (JObj o) → js_wf v → js_wf (JObj (obj_set k v o)).
Proof.
  inversion_clear 1 as [ | | | | | ? Hnd Ho ]. intros Hv. constructor.
  - by apply obj_set_NoDup.
  - by apply obj_set_Forall.
Qed.

(** *** [toJSON] and [fromJS] are inverse *)

Lemma toJS_wf v : js_wf (toJS v).
Proof.
  induction v as [ | b | n | s | l IH | m IH] using value_ind'; simpl;
    try by constructor.
  - constructor. by apply Forall_fmap.
  - constructor.
    + unfold keys. apply NoDup_fst_map_to_list.
    + apply Forall_forall. intros [k j] Hkj. simpl.
      apply elem_of_map_to_list in Hkj. rewrite lookup_fmap in Hkj.
      destruct (m !! k) as [x|] eqn:Hk; [|done].
      injection Hkj as <-. by apply (IH k x).
Qed.

Lemma fromJS_toJS v : fromJS (toJS v) = v.
Proof.
  induction v as [ | b | n | s | l IH | m IH] using value_ind'; simpl;
    try done.
  - f_equal. rewrite map_map. induction IH as [|x l Hx _ IHl]; simpl; [done|].
    by rewrite Hx, IHl.
  - f_equal. apply map_eq. intros k.
    change (map (λ kv : string * js, (kv.1, fromJS kv.2)))
      with (fmap (M:=list) (prod_map (@id string) fromJS)).
    rewrite <- map_to_list_fmap, list_to_map_to_list, <- map_fmap_compose.
    rewrite lookup_fmap. destruct (m !! k) as [x|] eqn:Hk; simpl; [|done].
    f_equal. by apply (IH k x).
Qed.

Lemma lookup_fromJS_fields k o :
  (list_to_map (map (λ kv, (kv.1, fromJS kv.2)) o) : gmap string value) !! k
  = fromJS <$> obj_get k o.
Proof.
  induction o as [|[k' v] o IH]; simpl; [done|].
  destruct (decide (k' = k)) as [->|Hne].
  - by rewrite lookup_insert_eq.
  - by rewrite lookup_insert_ne.
Qed.

Lemma fields_obj_set k v o :
  (list_to_map (map (λ kv, (kv.1, fromJS kv.2)) (obj_set k v o))
     : gmap string value)
  = <[k := fromJS v]> (list_to_map (map (λ kv, (kv.1, fromJS kv.2)) o)).
Proof.
  apply map_eq. intros k'.
  rewrite lookup_fromJS_fields, obj_get_set, lookup_insert.
  destruct (decide (k = k')); [done|]. by rewrite lookup_fromJS_fields.
Qed.

Lemma obj_get_toJS k (m : gmap string value) :
  obj_get k (map_to_list (toJS <$> m)) = toJS <$> m !! k.
Proof. by rewrite obj_get_list_to_map, list_to_map_to_list, lookup_fmap. Qed.

Lemma fromJS_fields (m : gmap string value) :
  list_to_map (map (λ kv, (kv.1, fromJS kv.2)) (map_to_list (toJS <$> m))) = m.
Proof. pose proof (fromJS_toJS (VMap m)) as H. simpl in H. by injection H. Qed.

(** ** JSON text: what [stringify] writes, [parse] reads back *)
Module JSONFacts.
Import JSON.

Lemma parse_chars_step c t :
  parse_chars (quote_char c ++ t) =
  '(l, rest) ← parse_chars t; Some (c :: l, rest).
Proof.
  destruct c as [[] [] [] [] [] [] [] []]; reflexivity.
Qed.

Lemma parse_chars_quote l rest :
  parse_chars (flat_map quote_char l ++ dquote :: rest) = Some (l, rest).
Proof.
  induction l as [|c l IH]; [reflexivity|].
  simpl flat_map. rewrite <- app_assoc, parse_chars_step, IH. reflexivity.
Qed.

Lemma follows_digit rest :
  follows rest →
  match rest with c :: _ => digit c = None | [] => True end.
Proof.
  destruct rest as [|c r]; [done|]. unfold digit.
  intros [-> | [-> | ->]]; reflexivity.
Qed.

Lemma follows_more_number rest : follows rest → more_number rest = false.
Proof.
  destruct rest as [|c r]; [done|]. unfold more_number.
  intros [-> | [-> | ->]]; reflexivity.
Qed.

Lemma parse_uint_print u rest :
  match rest with c :: _ => digit c = None | [] => True end →
  parse_uint (print_uint u ++ rest) = (u, rest).
Proof.
  intros Hrest. induction u; simpl; try (rewrite IHu; reflexivity).
  destruct rest as [|c r]; [reflexivity|]. simpl. by rewrite Hrest.
Qed.

Lemma to_uint_unorm n : Decimal.unorm (N.to_uint n) = N.to_uint n.
Proof. by rewrite <- (DecimalN.Unsigned.of_to n) at 2; rewrite DecimalN.Unsigned.to_of. Qed.

Lemma print_uint_head u :
  Decimal.unorm u = u →
  ∃ c r, print_uint u = c :: r ∧ number_head c = true ∧ (code c =? 45)%N = false.
Proof.
  destruct u; [discriminate| ..]; intros _; simpl; eauto 10.
Qed.

Lemma print_number_head n :
  ∃ c r, print_number n = c :: r ∧ number_head c = true.
Proof.
  unfold print_number. destruct (n <? 0).
  - simpl. eauto.
  - destruct (print_uint_head _ (to_uint_unorm (Z.abs_N n))) as (c & r & -> & ? & _).
    simpl. eauto.
Qed.

Lemma parse_int_print neg a rest :
  follows rest →
  parse_int neg (print_uint (N.to_uint a) ++ rest)
  = Some (JNum (if neg then - Z.of_N a else Z.of_N a), rest).
Proof.
  intros Hrest. unfold parse_int.
  rewrite parse_uint_print by by apply follows_digit.
  rewrite decide_True by apply to_uint_unorm.
  rewrite follows_more_number by done.
  by rewrite DecimalN.Unsigned.of_to.
Qed.

Lemma parse_number_unsigned s c r :
  s = c :: r → (code c =? 45)%N = false → parse_number s = parse_int false s.
Proof. intros -> Hc. simpl. by rewrite Hc. Qed.

Lemma parse_number_print n rest :
  follows rest → parse_number (print_number n ++ rest) = Some (JNum n, rest).
Proof.
  intros Hrest. unfold print_number.
  destruct (Z.ltb_spec n 0) as [Hneg|Hpos].
  - simpl. rewrite parse_int_print by done. do 3 f_equal. lia.
  - destruct (print_uint_head _ (to_uint_unorm (Z.abs_N n)))
      as (c & r & Hpr & _ & Hc).
    simpl app at 1.
    rewrite (parse_number_unsigned _ c (r ++ rest)); [|by rewrite Hpr|done].
    rewrite parse_int_print by done. do 3 f_equal. lia.
Qed.

Lemma parse_value_number fuel c r :
  number_head c = true → parse_value (S fuel) (c :: r) = parse_number (c :: r).
Proof.
  destruct c as [[] [] [] [] [] [] [] []]; try discriminate; reflexivity.
Qed.

Lemma number_head_plain c :
  number_head c = true →
  is_ws c = false ∧ (code c =? 93)%N = false ∧ (code c =? 125)%N = false.
Proof.
  destruct c as [[] [] [] [] [] [] [] []]; try discriminate; done.
Qed.

(** The first character of a printed value is no white space and closes
    nothing. *)
Lemma print_head j :
  ∃ c r, print j = c :: r ∧ is_ws c = false
         ∧ (code c =? 93)%N = false ∧ (code c =? 125)%N = false.
Proof.
  destruct j as [ | [] | n | s | l | o]; simpl; eauto 10.
  destruct (print_number_head n) as (c & r & -> & Hc).
  exists c, r. split; [done|]. by apply number_head_plain.
Qed.

Lemma skip_ws_print j rest : skip_ws (print j ++ rest) = print j ++ rest.
Proof.
  destruct (print_head j) as (c & r & -> & Hws & _). simpl. by rewrite Hws.
Qed.

Lemma parse_elements_S fuel s :
  parse_elements (S fuel) s =
  '(v, r) ← parse_value fuel s;
  match skip_ws r with
  | c :: r' =>
    if (code c =? 44)%N then
      '(l, r'') ← parse_elements fuel r'; Some (v :: l, r'')
    else if (code c =? 93)%N then Some ([v], r')
    else None
  | [] => None
  end.
Proof. reflexivity. Qed.

Lemma parse_elements_print l :
  l ≠ [] → Forall reads l →
  ∀ fuel rest, (S (length (join (map print l))) < fuel)%nat →
    parse_elements fuel (join (map print l) ++ "]"%char :: rest) = Some (l, rest).
Proof.
  intros Hne Hl. induction Hl as [|x l Hx Hl IH]; [done|]. clear Hne.
  intros [|fuel] rest Hfuel; [lia|]. rewrite parse_elements_S.
  destruct l as [|y l].
  - simpl in *. rewrite Hx; [|lia|simpl; auto]. reflexivity.
  - change (join (map print (x :: y :: l)))
      with (print x ++ ","%char :: join (map print (y :: l))) in *.
    rewrite length_app in Hfuel. simpl length in Hfuel.
    rewrite <- app_assoc. rewrite Hx; [|lia|simpl; auto].
    simpl. rewrite IH; [done|done|]. simpl. lia.
Qed.

Lemma parse_members_S fuel s :
  parse_members (S fuel) s =
  match skip_ws s with
  | c :: r =>
    if (code c =? 34)%N then
      '(k, r1) ← parse_chars r;
      match skip_ws r1 with
      | c1 :: r2 =>
        if (code c1 =? 58)%N then
          '(v, r3) ← parse_value fuel r2;
          let kv := (String.string_of_list_ascii k, v) in
          match skip_ws r3 with
          | c3 :: r4 =>
            if (code c3 =? 44)%N then
              '(l, r5) ← parse_members fuel r4; Some (kv :: l, r5)
            else if (code c3 =? 125)%N then Some ([kv], r4)
            else None
          | [] => None
          end
        else None
      | [] => None
      end
    else None
  | [] => None
  end.
Proof. reflexivity. Qed.

Lemma print_member_length k v :
  (length (print v) < length (print_member print (k, v)))%nat.
Proof. unfold print_member. rewrite length_app. simpl. lia. Qed.

Lemma parse_member_head fuel k v tail :
  reads v → (length (print v) < fuel)%nat → follows tail →
  parse_members (S fuel) (print_member print (k, v) ++ tail) =
  match skip_ws tail with
  | c3 :: r4 =>
    if (code c3 =? 44)%N then
      '(l, r5) ← parse_members fuel r4; Some ((k, v) :: l, r5)
    else if (code c3 =? 125)%N then Some ([(k, v)], r4)
    else None
  | [] => None
  end.
Proof.
  intros Hv Hfuel Htail. rewrite parse_members_S. unfold print_member, quote.
  simpl. rewrite <- !app_assoc. simpl. rewrite parse_chars_quote. simpl.
  rewrite Hv by done. simpl. by rewrite String.string_of_list_ascii_of_string.
Qed.

Lemma parse_members_print o :
  o ≠ [] → Forall (λ kv, reads kv.2) o →
  ∀ fuel rest, (S (length (join (map (print_member print) o))) < fuel)%nat →
    parse_members fuel (join (map (print_member print) o) ++ "}"%char :: rest)
    = Some (o, rest).
Proof.
  intros Hne Ho. induction Ho as [|[k v] o Hv Ho IH]; [done|]. clear Hne.
  intros [|fuel] rest Hfuel; [lia|].
  pose proof (print_member_length k v) as Hlen.
  destruct o as [|kv o].
  - change (join (map (print_member print) [(k, v)]))
      with (print_member print (k, v)) in *.
    rewrite parse_member_head; [done|done|lia|simpl; auto].
  - change (join (map (print_member print) ((k, v) :: kv :: o)))
      with (print_member print (k, v)
            ++ ","%char :: join (map (print_member print) (kv :: o))) in *.
    rewrite length_app in Hfuel. cbn [length] in Hfuel.
    rewrite <- app_assoc.
    rewrite parse_member_head; [|done|lia|simpl; auto].
    simpl skip_ws. simpl. rewrite IH; [done|done|]. lia.
Qed.

Lemma parse_value_S_arr fuel r :
  parse_value (S fuel) ("["%char :: r) =
  match skip_ws r with
  | c' :: r' =>
    if (code c' =? 93)%N then Some (JArr [], r')
    else '(l, r'') ← parse_elements fuel r; Some (JArr l, r'')
  | [] => None
  end.
Proof. reflexivity. Qed.

Lemma parse_value_S_obj fuel r :
  parse_value (S fuel) ("{"%char :: r) =
  match skip_ws r with
  | c' :: r' =>
    if (code c' =? 125)%N then Some (JObj [], r')
    else '(l, r'') ← parse_members fuel r; Some (JObj (obj_of_list l), r'')
  | [] => None
  end.
Proof. reflexivity. Qed.

Lemma skip_ws_items x l tail :
  ∃ c r, skip_ws (join (map print (x :: l)) ++ tail) = c :: r
         ∧ (code c =? 93)%N = false.
Proof.
  destruct (print_head x) as (c & r & Hx & Hws & Hc & _).
  destruct l as [|y l]; simpl; rewrite Hx; simpl; rewrite Hws; eauto.
Qed.

Lemma skip_ws_members kv o tail :
  ∃ c r, skip_ws (join (map (print_member print) (kv :: o)) ++ tail) = c :: r
         ∧ (code c =? 125)%N = false.
Proof. destruct o as [|y o]; simpl; eauto. Qed.

Lemma parse_value_print j : js_wf j → reads j.
Proof.
  induction j as [ | b | n | s | l IH | o IH] using js_ind';
    intros Hwf [|fuel] rest Hfuel Hrest; try (simpl in Hfuel; lia).
  - reflexivity.
  - by destruct b.
  - destruct (print_number_head n) as (c & r & Hpr & Hc).
    simpl print. simpl print in Hfuel.
    assert (print_number n ++ rest = c :: (r ++ rest)) as Hs by by rewrite Hpr.
    rewrite Hs, parse_value_number, <- Hs by done.
    by apply parse_number_print.
  - simpl print. unfold quote. simpl. rewrite <- app_assoc. simpl.
    rewrite parse_chars_quote. simpl.
    by rewrite String.string_of_list_ascii_of_string.
  - inversion_clear Hwf as [ | | | | ? Hl | ].
    cbn [print] in *.
    rewrite <- app_comm_cons, <- app_assoc, parse_value_S_arr.
    destruct l as [|x l]; [reflexivity|].
    destruct (skip_ws_items x l ([ "]"%char ] ++ rest)) as (c & r & -> & ->).
    cbn [app]. rewrite parse_elements_print; [done|done| |].
    + apply Forall_forall. intros y Hy.
      rewrite Forall_forall in IH, Hl. apply IH; auto.
    + cbn [length] in Hfuel. rewrite length_app in Hfuel.
      cbn [length] in Hfuel. lia.
  - inversion_clear Hwf as [ | | | | | ? Hnd Ho ].
    cbn [print] in *.
    rewrite <- app_comm_cons, <- app_assoc, parse_value_S_obj.
    destruct o as [|kv o]; [reflexivity|].
    destruct (skip_ws_members kv o ([ "}"%char ] ++ rest)) as (c & r & -> & ->).
    cbn [app]. rewrite parse_members_print; [|done| |].
    + simpl. by rewrite obj_of_list_NoDup.
    + apply Forall_forall. intros kv' Hkv.
      rewrite Forall_forall in IH, Ho. apply IH; auto.
    + cbn [length] in Hfuel. rewrite length_app in Hfuel.
      cbn [length] in Hfuel. lia.
Qed.

(** What [JSON.stringify] wrote, [JSON.parse] reads back. *)
Lemma parse_stringify j : js_wf j → JSON.parse (JSON.stringify j) = Normal j.
Proof.
  intros Hwf. unfold parse, stringify.
  rewrite String.list_ascii_of_string_of_list_ascii.
  pose proof (parse_value_print j Hwf (S (length (print j))) []) as H.
  rewrite app_nil_r in H. rewrite H; [done|lia|done].
Qed.

End JSONFacts.

(** ** [actions.js]: URL routing *)

Example encodeURIComponent_sample :
  encodeURIComponent "a b/c?d=e&f" = "a%20b%2Fc%3Fd%3De%26f".
Proof. reflexivity. Qed.



(** ** [actions.js]: session persistence *)

Example stringify_sample :
  JSON.stringify (JArr [JNum (-12); JNull; JBool false; JObj []; JNum 0])
  = "[-12,null,false,{},0]".
Proof. reflexivity. Qed.

Example parse_sample :
  JSON.parse " [ 1 ,[true] , null ] "
  = Normal (JArr [JNum 1; JArr [JBool true]; JNull]).
Proof. reflexivity. Qed.

Example parse_undefined : JSON.parse (ToString None) = Throw SyntaxError.
Proof. reflexivity. Qed.

Example writeSession_of_a_list localStorage :
  Actions.writeSession (VList []) localStorage = Throw TypeError.
Proof. reflexivity. Qed.

Lemma saved_wf m r : js_wf (saved m r).
Proof.
  unfold saved. apply obj_set_wf; [apply obj_set_wf|apply obj_set_wf].
  - apply (toJS_wf (VMap m)).
  - constructor.
  - apply (toJS_wf (VMap r)).
  - constructor.
Qed.

Lemma fromJS_saved m r :
  fromJS (saved m r)
  = VMap (<["rfa" := VMap (<["id" := VNum (-1)]> r)]>
            (<["appUpdateAvailable" := VBool false]> m)).
Proof.
  unfold saved. cbn [fromJS]. rewrite !fields_obj_set. cbn [fromJS].
  by rewrite fields_obj_set, !fromJS_fields.
Qed.

Lemma writeSession_saved m r localStorage :
  session_state m r →
  Actions.writeSession (VMap m) localStorage
  = Normal (<["session@0.0.3" := JSON.stringify (saved m r)]> localStorage).
Proof.
  intros Hr. unfold Actions.writeSession, saved. simpl.
  unfold set_member. simpl.
  rewrite obj_get_set. rewrite decide_False by done.
  rewrite obj_get_toJS, Hr. reflexivity.
Qed.

(** Without an [rfa] record the assignment [session.rfa.id = -1] throws,
    and nothing is stored. *)
Lemma writeSession_without_rfa m localStorage :
  m !! "rfa" = None →
  Actions.writeSession (VMap m) localStorage = Throw TypeError.
Proof.
  intros Hr. unfold Actions.writeSession. simpl. unfold set_member. simpl.
  rewrite obj_get_set. rewrite decide_False by done.
  by rewrite obj_get_toJS, Hr.
Qed.

Lemma readSession_stored text localStorage :
  Actions.readSession (<["session@0.0.3" := text]> localStorage)
  = try_catch (j ← JSON.parse text; mret (fromJS j)) (λ _, mret VNull).
Proof.
  unfold Actions.readSession.
  change Actions.session_key with "session@0.0.3".
  by rewrite lookup_insert_eq.
Qed.

(** The blank session is a session state. *)
Lemma resetSession_session_state `{!Viewer, !Dashboard} hasFocus :
  ∃ m, Actions.resetSession hasFocus = VMap m
       ∧ session_state m {[ "id" := VNum (-1) ]}.
Proof. eexists. split; reflexivity. Qed.





(** The [catch] makes [readSession] complete normally on every store. *)
Lemma readSession_normal (localStorage : gmap string string) :
  ∃ v, Actions.readSession localStorage = Normal v.
Proof.
  unfold Actions.readSession. destruct (JSON.parse _); simpl; eauto.
Qed.



(** ** [index.js]: the first state *)

(** C6, as stated, fails: the stored text [0] makes [readSession] return
    the number 0, which is not [null], and yet the browser starts with the
    blank session, because [||] falls through on every falsy value. *)
Lemma initialState_falsy_session :
  Actions.readSession {[ "session@0.0.3" := "0" ]} = Normal (VNum 0)
  ∧ VNum 0 ≠ VNull
  ∧ @Index.initialState Sample.viewer Sample.dashboard
      {[ "session@0.0.3" := "0" ]} true
    = Normal (@Actions.resetSession Sample.viewer Sample.dashboard true)
  ∧ @Actions.resetSession Sample.viewer Sample.dashboard true ≠ VNum 0.
Proof. repeat split; try done. Qed.

(** C6, amended.  The browser starts with what [readSession] returns when
    that is truthy, as every map and list is, and otherwise (for [null] and
    the other falsy values) with the blank session of [resetSession]: one
    web viewer, pinned, selected, active and not focused, an input with
    empty value and [isFocused] false, a tab strip with [isActive] false,
    suggestions with [selectedIndex] -1 and an empty list. *)
Theorem initialState_spec `{!Viewer, !Dashboard}
    (localStorage : gmap string string) (hasFocus : bool) :
  (∃ session, Actions.readSession localStorage = Normal session
     ∧ Index.initialState localStorage hasFocus
       = Normal (if truthy session then session
                 else Actions.resetSession hasFocus))
  ∧ (∀ m, truthy (VMap m) = true) ∧ (∀ l, truthy (VList l) = true)
  ∧ truthy VNull = false
  ∧ ∃ blank_session home,
      Actions.resetSession hasFocus = VMap blank_session
      ∧ blank_session !! "webViewers" = Some (VList [home])
      ∧ home = open {[ "id" := VStr "about:blank";
                       "isPinned" := VBool true;
                       "isSelected" := VBool true;
                       "isActive" := VBool true;
                       "isFocused" := VBool false ]}
      ∧ Deck.isPinned home = true
      ∧ Cursor.get_key home (Field "isSelected") = Some (VBool true)
      ∧ Cursor.get_key home (Field "isActive") = Some (VBool true)
      ∧ Cursor.get_key home (Field "isFocused") = Some (VBool false)
      ∧ blank_session !! "input"
        = Some (VMap {[ "value" := VStr ""; "isFocused" := VBool false ]})
      ∧ blank_session !! "tabStrip"
        = Some (VMap {[ "isActive" := VBool false ]})
      ∧ blank_session !! "suggestions"
        = Some (VMap {[ "selectedIndex" := VNum (-1); "list" := VList [] ]}).
Proof.
  split; [|repeat split].
  - destruct (readSession_normal localStorage) as [v Hv].
    exists v. split; [done|]. unfold Index.initialState. rewrite Hv. simpl.
    by destruct (truthy v).
  - eexists _, _. split; [reflexivity|]. split; [reflexivity|].
    split; [reflexivity|].
    unfold Deck.isPinned, open. simpl.
    repeat split; try reflexivity.
    all: try (rewrite lookup_union_l'; [reflexivity | eexists; reflexivity]).
Qed.

(** ** [actions.js]: the field setters *)

Lemma insert_sets_only k x : sets_only (insert k x) k x.
Proof.
  intros m. split; [apply lookup_insert_eq|]. split.
  - intros k' Hk'. by apply lookup_insert_ne.
  - apply insert_insert_eq.
Qed.

(** C10.  [focus], [blur], [select], [showTabStrip] and [hideTabStrip] each
    set their one field ([isFocused] to true or false, [selection] to
    [{all: true}], [isActive] to true or false), leave every other field as
    it is, and are idempotent. *)
Theorem setters_frame :
  sets_only Actions.focus "isFocused" (VBool true)
  ∧ sets_only Actions.blur "isFocused" (VBool false)
  ∧ sets_only Actions.select "selection" (VMap {[ "all" := VBool true ]})
  ∧ sets_only Actions.showTabStrip "isActive" (VBool true)
  ∧ sets_only Actions.hideTabStrip "isActive" (VBool false).
Proof. repeat split; apply insert_sets_only. Qed.

(** ** [browser.js]: the deck handlers *)

(** C9.  [switchTab] returns the deck as it is when the target is absent;
    so [switchTab.toIndex(i)] is the identity on a deck whose arrangement
    has no item at [i]. *)
Theorem switchTab_absent `{!Deck.Ops} (items : list value) :
  Browser.switchTab items None = items
  ∧ ∀ index, List_get (Deck.arrange items) index = None →
      Browser.toIndex index items = items.
Proof.
  split; [reflexivity|]. intros index Hnone.
  unfold Browser.toIndex. by rewrite Hnone.
Qed.

Lemma switchTab_absent_witness :
  List_get (@Deck.arrange Sample.deck [Sample.home; Sample.page]) 2 = None
  ∧ @Browser.toIndex Sample.deck 2 [Sample.home; Sample.page]
    = [Sample.home; Sample.page].
Proof.
  split; [reflexivity|].
  exact (proj2 (@switchTab_absent Sample.deck [Sample.home; Sample.page])
           2 eq_refl).
Defined.

Lemma remove_length items p :
  (length items - 1 ≤ length (Deck.remove items p))%nat.
Proof.
  induction items as [|x items IH]; simpl; [lia|].
  destruct (p x); simpl; lia.
Qed.

Lemma remove_first before x after p :
  Forall (λ y, p y = false) before → p x = true →
  Deck.remove (before ++ x :: after) p = before ++ after.
Proof.
  intros Hbefore Hx. induction Hbefore as [|y before Hy _ IH]; simpl.
  - by rewrite Hx.
  - by rewrite Hy, IH.
Qed.

Lemma remove_none items p :
  Forall (λ y, p y = false) items → Deck.remove items p = items.
Proof.
  induction 1 as [|y items Hy _ IH]; simpl; [done|]. by rewrite Hy, IH.
Qed.


(** A viewer carries the options it was opened with. *)
Lemma open_option `{!Viewer} (options : gmap string value) k x :
  options !! k = Some x → Cursor.get_key (open options) (Field k) = Some x.
Proof. intros Hk. simpl. by apply lookup_union_Some_l. Qed.

(** C8.  [close] leaves at least one viewer: of a deck of more than one
    item it removes the first viewer that matches the predicate, and in a
    deck of one item it puts a fresh blank viewer, selected and active, at
    index 0. *)
Theorem close_leaves_a_viewer `{!Viewer} (p : value → bool) (items : list value) :
  (1 ≤ length (Browser.close p items))%nat
  ∧ ((1 < length items)%nat →
       Browser.close p items = Deck.remove items p
       ∧ (∀ before x after,
            items = before ++ x :: after →
            Forall (λ y, p y = false) before → p x = true →
            Browser.close p items = before ++ after))
  ∧ (length items = 1%nat →
       ∃ fresh,
         Browser.close p items = [fresh]
         ∧ fresh = open {[ "isSelected" := VBool true;
                           "isActive" := VBool true ]}
         ∧ Cursor.get_key fresh (Field "isSelected") = Some (VBool true)
         ∧ Cursor.get_key fresh (Field "isActive") = Some (VBool true)).
Proof.
  unfold Browser.close. split; [|split].
  - destruct (decide (1 < length items)%nat) as [Hlen|Hlen].
    + pose proof (remove_length items p). lia.
    + unfold List_set. case_decide; [by rewrite length_insert|].
      rewrite !length_app. simpl. lia.
  - intros Hlen. rewrite decide_True by done. split; [done|].
    intros before x after -> Hbefore Hx. by apply remove_first.
  - intros Hlen. destruct items as [|x [|y items]]; try done.
    eexists. split; [reflexivity|]. split; [reflexivity|].
    split; by apply open_option.
Qed.

Lemma close_leaves_a_viewer_witness :
  @Browser.close Sample.viewer (Sample.field_is "isActive")
    [Sample.page; Sample.home] = [Sample.page]
  ∧ ∃ fresh,
      @Browser.close Sample.viewer (Sample.field_is "isActive") [Sample.home]
        = [fresh]
      ∧ fresh = @open Sample.viewer {[ "isSelected" := VBool true;
                                       "isActive" := VBool true ]}
      ∧ Cursor.get_key fresh (Field "isSelected") = Some (VBool true)
      ∧ Cursor.get_key fresh (Field "isActive") = Some (VBool true).
Proof.
  split.
  - refine (proj2 (proj1 (proj2 (@close_leaves_a_viewer Sample.viewer
              (Sample.field_is "isActive") [Sample.page; Sample.home])) _)
            [Sample.page] Sample.home [] eq_refl _ eq_refl).
    + simpl. lia.
    + repeat constructor.
  - exact (proj2 (proj2 (@close_leaves_a_viewer Sample.viewer
              (Sample.field_is "isActive") [Sample.home])) eq_refl).
Defined.

(** ** [browser.js]: handlers on the root *)

Section viewers.
Context (root : gmap string value) (items : list value).
Hypothesis Hroot : root !! "webViewers" = Some (VList items).

Lemma getIn_viewer i :
  Cursor.getIn (VMap root) (Browser.webViewerCursor i) = items !! i.
Proof. simpl. rewrite Hroot. simpl. by destruct (items !! i). Qed.

Lemma isPinned_viewer i :
  Browser.isPinned (Browser.webViewerCursor i) (VMap root)
  = from_option Deck.isPinned false (items !! i).
Proof.
  unfold Browser.isPinned. rewrite getIn_viewer. by destruct (items !! i).
Qed.


Lemma update_viewer i m f m' :
  items !! i = Some (VMap m) → f (VMap m) = Some m' →
  Cursor.update (Browser.webViewerCursor i) f (VMap root)
  = Some (VMap (<["webViewers" := VList (<[i := m']> items)]> root)).
Proof.
  intros Hi Hf. unfold Cursor.update. simpl. rewrite Hroot. simpl.
  rewrite Hi. simpl. rewrite Hf. simpl. unfold List_set.
  by rewrite decide_True by by eapply lookup_lt_Some.
Qed.


Lemma merge_viewer i m obj :
  items !! i = Some (VMap m) →
  Cursor.merge (Browser.webViewerCursor i) obj (VMap root)
  = Some (VMap (<["webViewers" := VList (<[i := VMap (obj ∪ m)]> items)]>
                  root)).
Proof. intros Hi. unfold Cursor.merge. by erewrite update_viewer. Qed.

End viewers.




(** Direct navigation with a viewer that is not pinned: its [uri] becomes
    the resolved URI and its [isFocused] becomes true; nothing else
    changes. *)
Theorem navigateTo_unpinned `{!Url, !Viewer} (root viewer : gmap string value)
    (items : list value) (i : nat) (location : string) :
  root !! "webViewers" = Some (VList items) →
  items !! i = Some (VMap viewer) →
  Deck.isPinned (VMap viewer) = false →
  Browser.navigateTo Browser.webViewersCursor (Browser.webViewerCursor i)
    location (VMap root)
  = Some (VMap (<["webViewers" :=
        VList (<[i := VMap (<["uri" := VStr (Actions.readInputURL location)]>
                              (<["isFocused" := VBool true]> viewer))]>
                 items)]> root)).
Proof.
  intros Hroot Hi Hpinned. unfold Browser.navigateTo.
  rewrite (isPinned_viewer _ _ Hroot), Hi. simpl from_option.
  rewrite Hpinned. erewrite merge_viewer by done.
  do 5 f_equal. by rewrite <- insert_union_l, <- insert_union_singleton_l.
Qed.

Lemma navigateTo_unpinned_witness :
  ∃ root,
    @Browser.navigateTo Sample.url Sample.viewer Browser.webViewersCursor
      (Browser.webViewerCursor 1) "example.org"
      (Sample.session [Sample.home; Sample.page]) = Some root
    ∧ Cursor.getIn root (Browser.webViewerCursor 1 ++ [Field "uri"])
      = Some (VStr "http://example.org")
    ∧ Cursor.getIn root (Browser.webViewerCursor 1 ++ [Field "isFocused"])
      = Some (VBool true).
Proof.
  eexists. split.
  - refine (@navigateTo_unpinned Sample.url Sample.viewer _ _
              [Sample.home; Sample.page] 1 "example.org" _ _ _);
      reflexivity.
  - split; reflexivity.
Defined.

(** The awesomebar's [onOpen] with a viewer that is not pinned leaves the
    root as it is, whatever the URI: [loadURI] never receives it. *)
Theorem Awesomebar_onOpen_unpinned `{!Viewer} (root : gmap string value)
    (items : list value) (i : nat) (viewer : value) (uri : string) :
  root !! "webViewers" = Some (VList items) →
  items !! i = Some viewer →
  Deck.isPinned viewer = false →
  Browser.Awesomebar_onOpen Browser.webViewersCursor
    (Browser.webViewerCursor i) uri (VMap root)
  = Some (VMap root).
Proof.
  intros Hroot Hi Hpinned. unfold Browser.Awesomebar_onOpen.
  rewrite (isPinned_viewer _ _ Hroot), Hi. simpl. by rewrite Hpinned.
Qed.

(** C2, on a failing input.  The active viewer [page] is not pinned.
    Opening [http://example.org] from the awesomebar returns the root
    unchanged: the viewer keeps its old [uri] and stays unfocused, where
    direct navigation to the same URI sets both fields. *)
Theorem Awesomebar_onOpen_failing_input :
  Deck.isPinned Sample.page = false
  ∧ @Browser.Awesomebar_onOpen Sample.viewer Browser.webViewersCursor
      (Browser.webViewerCursor 1) "http://example.org"
      (Sample.session [Sample.home; Sample.page])
    = Some (Sample.session [Sample.home; Sample.page])
  ∧ Cursor.getIn (Sample.session [Sample.home; Sample.page])
      (Browser.webViewerCursor 1 ++ [Field "uri"])
    = Some (VStr "http://old.example/")
  ∧ Cursor.getIn (Sample.session [Sample.home; Sample.page])
      (Browser.webViewerCursor 1 ++ [Field "isFocused"])
    = Some (VBool false)
  ∧ ∃ root,
      @Browser.navigateTo Sample.url Sample.viewer Browser.webViewersCursor
        (Browser.webViewerCursor 1) "http://example.org"
        (Sample.session [Sample.home; Sample.page]) = Some root
      ∧ Cursor.getIn root (Browser.webViewerCursor 1 ++ [Field "uri"])
        = Some (VStr "http://example.org")
      ∧ Cursor.getIn root (Browser.webViewerCursor 1 ++ [Field "isFocused"])
        = Some (VBool true).
Proof.
  split; [reflexivity|]. split; [reflexivity|]. split; [reflexivity|].
  split; [reflexivity|].
  eexists. split; [vm_compute; reflexivity|]. split; reflexivity.
Qed.

Lemma Awesomebar_onOpen_unpinned_witness :
  @Browser.Awesomebar_onOpen Sample.viewer Browser.webViewersCursor
    (Browser.webViewerCursor 1) "http://example.org"
    (Sample.session [Sample.home; Sample.page])
  = Some (Sample.session [Sample.home; Sample.page]).
Proof.
  refine (@Awesomebar_onOpen_unpinned Sample.viewer _
            [Sample.home; Sample.page] 1 Sample.page "http://example.org"
            _ _ _); reflexivity.
Defined.

(** * More properties *)

(** ** More of [actions.js]: the search URL *)

Lemma percent_decode_step c t :
  percent_decode ((if unreserved c then String c "" else percent c) +:+ t)
  = t' ← percent_decode t; Some (String c t').
Proof. destruct c as [[] [] [] [] [] [] [] []]; reflexivity. Qed.

(** Decoding undoes [encodeURIComponent]. *)
Lemma percent_decode_encode s :
  percent_decode (encodeURIComponent s) = Some s.
Proof.
  induction s as [|c s IH]; [reflexivity|].
  cbn [encodeURIComponent]. by rewrite percent_decode_step, IH.
Qed.

Lemma append_inj_l (p s t : string) : p +:+ s = p +:+ t → s = t.
Proof. induction p as [|c p IH]; simpl; [done|]. intros [= ?]. auto. Qed.

(** The input is read back from its search URL by decoding what follows
    the prefix; so different inputs have different search URLs. *)
Theorem makeSearchURL_reads_back (input : string) :
  (∃ query,
     Actions.makeSearchURL input = "https://duckduckgo.com/?q=" +:+ query
     ∧ percent_decode query = Some input)
  ∧ ∀ other, Actions.makeSearchURL input = Actions.makeSearchURL other →
      input = other.
Proof.
  split.
  - exists (encodeURIComponent input). split; [reflexivity|].
    apply percent_decode_encode.
  - unfold Actions.makeSearchURL. intros other H%append_inj_l.
    apply (f_equal percent_decode) in H.
    rewrite !percent_decode_encode in H. by injection H.
Qed.

Lemma encode_char_safe c :
  forallb (λ x, unreserved x || Ascii.eqb x "%"%char)
    (String.list_ascii_of_string
       (if unreserved c then String c "" else percent c)) = true.
Proof. destruct c as [[] [] [] [] [] [] [] []]; reflexivity. Qed.

Lemma list_ascii_of_string_app s t :
  String.list_ascii_of_string (s +:+ t)
  = String.list_ascii_of_string s ++ String.list_ascii_of_string t.
Proof. induction s as [|c s IH]; simpl; [done|]. by rewrite IH. Qed.

Lemma encodeURIComponent_safe s :
  Forall (λ x, unreserved x = true ∨ x = "%"%char)
    (String.list_ascii_of_string (encodeURIComponent s)).
Proof.
  induction s as [|c s IH]; [constructor|].
  cbn [encodeURIComponent]. rewrite list_ascii_of_string_app.
  apply Forall_app. split; [|done].
  apply Forall_forall. intros x Hx%list_elem_of_In.
  pose proof (encode_char_safe c) as Hc.
  rewrite forallb_forall in Hc. apply Hc in Hx.
  apply orb_true_iff in Hx as [Hx|Hx%Ascii.eqb_eq]; auto.
Qed.

(** The query of a search URL is made of unreserved characters and percent
    signs only: no space, ampersand, equals sign, plus, hash, question
    mark or slash of the input reaches the URL as it is. *)
Theorem makeSearchURL_query_safe (input : string) :
  ∃ query,
    Actions.makeSearchURL input = "https://duckduckgo.com/?q=" +:+ query
    ∧ Forall (λ c, unreserved c = true ∨ c = "%"%char)
        (String.list_ascii_of_string query)
    ∧ ∀ c, c ∈ String.list_ascii_of_string query →
        c ∉ [" "%char; "&"%char; "="%char; "+"%char; "#"%char; "?"%char;
             "/"%char].
Proof.
  exists (encodeURIComponent input). split; [reflexivity|].
  pose proof (encodeURIComponent_safe input) as Hsafe.
  split; [done|]. intros c Hc Hbad.
  rewrite Forall_forall in Hsafe. specialize (Hsafe c Hc).
  repeat (apply elem_of_cons in Hbad as [->|Hbad];
          [by destruct Hsafe|]).
  by apply elem_of_nil in Hbad.
Qed.

(** Every resolved location has a scheme, once [hasScheme] knows the two
    schemes the code writes. *)
Theorem readInputURL_has_scheme `{!Url} (input : string) :
  (∀ x, hasScheme ("http://" +:+ x) = true) →
  (∀ x, hasScheme ("https://" +:+ x) = true) →
  hasScheme (Actions.readInputURL input) = true.
Proof.
  intros Hhttp Hhttps. unfold Actions.readInputURL.
  destruct (isNotURL input).
  - apply (Hhttps ("duckduckgo.com/?q=" +:+ encodeURIComponent input)).
  - destruct (hasScheme input) eqn:Hs; simpl; [done|apply Hhttp].
Qed.

Lemma readInputURL_has_scheme_witness :
  @hasScheme Sample.url (@Actions.readInputURL Sample.url "rocq prover")
    = true
  ∧ @hasScheme Sample.url (@Actions.readInputURL Sample.url "example.org")
    = true.
Proof.
  split.
  - apply (@readInputURL_has_scheme Sample.url "rocq prover");
      intros x; simpl; destruct x; reflexivity.
  - apply (@readInputURL_has_scheme Sample.url "example.org");
      intros x; simpl; destruct x; reflexivity.
Defined.

Lemma readInputURL_fixed `{!Url} (location : string) :
  isNotURL location = false → hasScheme location = true →
  Actions.readInputURL location = location.
Proof. intros H1 H2. unfold Actions.readInputURL. by rewrite H1, H2. Qed.

(** Resolving a resolved location changes nothing, once [util/url] takes
    what the code writes for a URL with a scheme. *)
Theorem readInputURL_idempotent `{!Url} (input : string) :
  (∀ x, hasScheme ("http://" +:+ x) = true) →
  (∀ x, hasScheme ("https://" +:+ x) = true) →
  (∀ x, isNotURL x = false → isNotURL ("http://" +:+ x) = false) →
  (∀ x, isNotURL (Actions.makeSearchURL x) = false) →
  Actions.readInputURL (Actions.readInputURL input)
  = Actions.readInputURL input.
Proof.
  intros Hhttp Hhttps Hurl Hsearch. apply readInputURL_fixed.
  - unfold Actions.readInputURL. destruct (isNotURL input) eqn:Hin; [done|].
    destruct (hasScheme input); simpl; auto.
  - unfold Actions.readInputURL. destruct (isNotURL input).
    + apply (Hhttps ("duckduckgo.com/?q=" +:+ encodeURIComponent input)).
    + destruct (hasScheme input) eqn:Hs; simpl; [done|apply Hhttp].
Qed.

Lemma readInputURL_idempotent_witness :
  @Actions.readInputURL Sample.url
    (@Actions.readInputURL Sample.url "example.org/a b")
  = @Actions.readInputURL Sample.url "example.org/a b"
  ∧ @Actions.readInputURL Sample.url
      (@Actions.readInputURL Sample.url "rocq prover")
    = @Actions.readInputURL Sample.url "rocq prover".
Proof.
  split.
  - apply (@readInputURL_idempotent Sample.url "example.org/a b");
      intros x; simpl; try (destruct x; reflexivity); try reflexivity.
    intros Hx. exact Hx.
  - apply (@readInputURL_idempotent Sample.url "rocq prover");
      intros x; simpl; try (destruct x; reflexivity); try reflexivity.
    intros Hx. exact Hx.
Defined.

(** ** More of [actions.js]: persistence *)



(** What [readSession] finds after [writeSession] stored a session. *)
Lemma readSession_saved m r localStorage :
  Actions.readSession
    (<["session@0.0.3" := JSON.stringify (saved m r)]> localStorage)
  = Normal (VMap (restored m r)).
Proof.
  rewrite readSession_stored, JSONFacts.parse_stringify by apply saved_wf.
  unfold restored. simpl. by rewrite <- fromJS_saved.
Qed.



(** When [writeSession] throws.  A session that is no collection, or whose
    [rfa] is missing, [null] or a primitive, makes it throw a [TypeError]
    (and then nothing is stored); with a list for [rfa] it stores the list
    as it is, the [id] written on it being no item of it. *)
Theorem writeSession_throws (session : value)
    (localStorage : gmap string string) :
  match session with
  | VMap m =>
    match m !! "rfa" with
    | Some (VMap _) =>
        ∃ stored, Actions.writeSession session localStorage = Normal stored
    | Some (VList l) =>
        ∃ text o,
          Actions.writeSession session localStorage
            = Normal (<["session@0.0.3" := text]> localStorage)
          ∧ JSON.parse text = Normal (JObj o)
          ∧ obj_get "rfa" o = Some (toJS (VList l))
    | _ => Actions.writeSession session localStorage = Throw TypeError
    end
  | _ => Actions.writeSession session localStorage = Throw TypeError
  end.
Proof.
  destruct session as [ | b | n | s | l | m]; try reflexivity.
  destruct (m !! "rfa") as [rfa|] eqn:Hr;
    [|by apply writeSession_without_rfa].
  assert (∀ inner,
    toJS rfa = inner →
    Actions.writeSession (VMap m) localStorage
    = (inner' ← set_property inner "id" (JNum (-1));
       mret (<["session@0.0.3" :=
                 JSON.stringify
                   (JObj (obj_set "rfa" inner'
                      (obj_set "appUpdateAvailable" (JBool false)
                         (map_to_list (toJS <$> m)))))]> localStorage)))
    as Hw.
  { intros inner <-. unfold Actions.writeSession. simpl. unfold set_member.
    simpl. rewrite obj_get_set, decide_False by done.
    rewrite obj_get_toJS, Hr. simpl.
    by destruct (set_property (toJS rfa) "id" (JNum (-1))). }
  destruct rfa as [ | b | n | s | l | r]; try (by rewrite (Hw _ eq_refl)).
  - rewrite (Hw _ eq_refl). simpl. eexists _, _. split; [reflexivity|].
    split.
    + apply JSONFacts.parse_stringify. apply obj_set_wf; [apply obj_set_wf|].
      * apply (toJS_wf (VMap m)).
      * constructor.
      * apply (toJS_wf (VList l)).
    + by rewrite obj_get_set, decide_True.
  - rewrite (Hw _ eq_refl). simpl. eauto.
Qed.

(** Persistence uses the one key: [writeSession] leaves every other key of
    the store as it is, and [readSession] does not depend on them. *)
Theorem session_key_only (session : value)
    (localStorage stored : gmap string string) (k v : string) :
  k ≠ "session@0.0.3" →
  (Actions.writeSession session localStorage = Normal stored →
     stored !! k = localStorage !! k)
  ∧ Actions.readSession (<[k := v]> localStorage)
    = Actions.readSession localStorage
  ∧ Actions.readSession (delete k localStorage)
    = Actions.readSession localStorage.
Proof.
  intros Hk. split; [|split].
  - unfold Actions.writeSession.
    destruct (toJSON session) as [j|]; simpl; [|done].
    destruct (set_property j _ _) as [j'|]; simpl; [|done].
    destruct (set_member j' _ _ _) as [j''|]; simpl; [|done].
    intros [= <-]. by rewrite lookup_insert_ne.
  - unfold Actions.readSession.
    change Actions.session_key with "session@0.0.3".
    by rewrite lookup_insert_ne.
  - unfold Actions.readSession.
    change Actions.session_key with "session@0.0.3".
    by rewrite lookup_delete_ne.
Qed.

Lemma session_key_only_witness :
  Actions.readSession (<["theme" := "dark"]> ∅) = Actions.readSession ∅.
Proof.
  exact (proj1 (proj2 (session_key_only VNull ∅ ∅ "theme" "dark"
           ltac:(discriminate)))).
Defined.

(** ** More of [index.js]: starting from the store *)

(** The browser starts with a truthy state, and starting never throws. *)
Theorem initialState_truthy `{!Viewer, !Dashboard}
    (localStorage : gmap string string) (hasFocus : bool) :
  ∃ state,
    Index.initialState localStorage hasFocus = Normal state
    ∧ truthy state = true.
Proof.
  destruct (readSession_normal localStorage) as [v Hv].
  unfold Index.initialState. rewrite Hv. simpl.
  destruct (truthy v) eqn:Htruthy; simpl; eauto.
Qed.



(** ** [browser.js]: what the [Browser] component shows *)

Section rendering.
Context `{!Component.Find}.
Import Component.

(** With the dashboard showing (the active viewer's [uri] is [null]): the
    tab strip is shown, the page does not scroll, the kill zone and the
    web viewers are hidden, the dashboard is not.  Otherwise the dashboard
    is hidden and the web viewers are not. *)
Theorem render_dashboard (immutableState : value) (r : rendered) :
  render immutableState = Some r →
  (isDashboardActive r = true →
     showtabstrip r = true ∧ scrollable r = false
     ∧ tabstripkillzone_hidden r = true
     ∧ dashboard_hidden r = false ∧ webViewers_hidden r = true)
  ∧ (isDashboardActive r = false →
     dashboard_hidden r = true ∧ webViewers_hidden r = false).
Proof.
  unfold render.
  destruct (Cursor.get_key _ (Field "webViewers")) as [[ | | | |items| ]|];
    try done.
  destruct (has_get _); try done.
  intros [= <-]. simpl.
  split; intros ->; simpl; repeat split; by rewrite ?andb_false_r.
Qed.

(** The page scrolls only while the tab strip is not shown and the
    awesomebar has no focus; the kill zone is there only while the tab
    strip is shown over a page, the awesomebar having no focus. *)
Theorem render_exclusive (immutableState : value) (r : rendered) :
  render immutableState = Some r →
  (scrollable r = true →
     showtabstrip r = false ∧ isAwesomebarActive r = false
     ∧ isDashboardActive r = false)
  ∧ (tabstripkillzone_hidden r = false →
     showtabstrip r = true ∧ isAwesomebarActive r = false
     ∧ isDashboardActive r = false ∧ scrollable r = false).
Proof.
  unfold render.
  destruct (Cursor.get_key _ (Field "webViewers")) as [[ | | | |items| ]|];
    try done.
  destruct (has_get _); try done.
  intros [= <-]. simpl.
  destruct (uri_is_null _), (truthy_opt (Cursor.get inputCursor _ _)),
    (truthy_opt (Cursor.get tabStripCursor _ _)); simpl; by repeat split.
Qed.

End rendering.

Section handlers.
Context `{!Component.Find}.
Import Component.

Lemma get_field (root : gmap string value) a k :
  Cursor.get [Field a] k (VMap root)
  = root !! a ≫= λ v, Cursor.get_key v (Field k).
Proof.
  unfold Cursor.get. simpl. destruct (root !! a) as [v|]; simpl; [|done].
  by destruct (Cursor.get_key v _).
Qed.

(** The render, read off the fields of the root. *)
Lemma render_root (root : gmap string value) :
  render (VMap root) =
  match root !! "webViewers" with
  | Some (VList webViewers) =>
    if negb (has_get (root !! "dashboard")) then None else
    let dashboard :=
      uri_is_null (List_get webViewers (indexOfActive webViewers)) in
    let focused :=
      truthy_opt (root !! "input" ≫= λ v, Cursor.get_key v (Field "isFocused")) in
    let visible :=
      dashboard
      || (truthy_opt
            (root !! "tabStrip" ≫= λ v, Cursor.get_key v (Field "isActive"))
          && negb focused) in
    Some {|
      isDashboardActive := dashboard;
      isAwesomebarActive := focused;
      isTabStripVisible := visible;
      windowFocused := truthy_opt (root !! "isDocumentFocused");
      showtabstrip := visible;
      scrollable := negb focused && negb visible;
      tabstripkillzone_hidden := negb visible || dashboard;
      dashboard_hidden := negb dashboard;
      webViewers_hidden := dashboard;
      appupdatebanner_active := truthy_opt (root !! "appUpdateAvailable")
    |}
  | _ => None
  end.
Proof.
  unfold render, inputCursor, tabStripCursor. rewrite !get_field. simpl.
  by destruct (root !! "webViewers") as [[ | | | |items| ]|].
Qed.

Lemma update_field (root m : gmap string value) k f :
  root !! k = Some (VMap m) →
  Cursor.update [Field k] (on_Map f) (VMap root)
  = Some (VMap (<[k := VMap (f m)]> root)).
Proof. intros Hk. unfold Cursor.update. simpl. by rewrite Hk. Qed.

(** After [accel l] the awesomebar has the focus and its text is
    selected; the page does not scroll, the kill zone is hidden, and the
    tab strip is shown on the dashboard only.  Nothing but the input
    changes. *)
Theorem accel_l_focuses_awesomebar (root input : gmap string value)
    (r : rendered) :
  root !! "input" = Some (VMap input) →
  render (VMap root) = Some r →
  ∃ r',
    onNavigation_accel_l (VMap root)
      = Some (VMap (<["input" :=
                       VMap (<["selection" := VMap {[ "all" := VBool true ]}]>
                               (<["isFocused" := VBool true]> input))]> root))
    ∧ render (VMap (<["input" :=
                       VMap (<["selection" := VMap {[ "all" := VBool true ]}]>
                               (<["isFocused" := VBool true]> input))]> root))
      = Some r'
    ∧ isAwesomebarActive r' = true
    ∧ scrollable r' = false
    ∧ tabstripkillzone_hidden r' = true
    ∧ isDashboardActive r' = isDashboardActive r
    ∧ showtabstrip r' = isDashboardActive r.
Proof.
  intros Hinput. rewrite render_root.
  destruct (root !! "webViewers") as [[ | | | |items| ]|] eqn:Hitems; try done.
  destruct (has_get (root !! "dashboard")) eqn:Hdash; try done.
  intros [= <-]. eexists. split.
  - unfold onNavigation_accel_l, and_then, inputCursor.
    rewrite (update_field _ _ _ _ Hinput). cbn [mbind option_bind].
    rewrite (update_field _ (Actions.focus input)) by apply lookup_insert_eq.
    by rewrite insert_insert_eq.
  - rewrite render_root.
    rewrite (lookup_insert_ne _ _ "webViewers"), Hitems by done.
    rewrite (lookup_insert_ne _ _ "dashboard"), Hdash by done.
    split; [reflexivity|]. simpl.
    rewrite lookup_insert_eq. simpl.
    rewrite lookup_insert_ne, lookup_insert_eq by done. simpl.
    rewrite andb_false_r, orb_false_r.
    repeat split. by destruct (uri_is_null _).
Qed.

(** Pressing a key of the tab strip shows it unless the awesomebar has the
    focus over a page; releasing the key hides it, and the kill zone with
    it, unless the dashboard is showing. *)
Theorem tab_strip_keys (root tabStrip : gmap string value) (r : rendered) :
  root !! "tabStrip" = Some (VMap tabStrip) →
  render (VMap root) = Some r →
  (∃ root' r',
     onTabStripKeyDown (VMap root) = Some (VMap root')
     ∧ root' = <["tabStrip" := VMap (<["isActive" := VBool true]> tabStrip)]>
                 root
     ∧ render (VMap root') = Some r'
     ∧ showtabstrip r' = isDashboardActive r || negb (isAwesomebarActive r))
  ∧ (∃ root' r',
     onTabStripKeyUp (VMap root) = Some (VMap root')
     ∧ root' = <["tabStrip" := VMap (<["isActive" := VBool false]> tabStrip)]>
                 root
     ∧ render (VMap root') = Some r'
     ∧ showtabstrip r' = isDashboardActive r
     ∧ tabstripkillzone_hidden r' = true).
Proof.
  intros Hstrip. rewrite render_root.
  destruct (root !! "webViewers") as [[ | | | |items| ]|] eqn:Hitems; try done.
  destruct (has_get (root !! "dashboard")) eqn:Hdash; try done.
  intros [= <-].
  split; eexists _, _;
    (split; [by apply update_field|]); (split; [reflexivity|]);
    rewrite render_root, (lookup_insert_ne _ _ "webViewers"), Hitems,
      (lookup_insert_ne _ _ "dashboard"), Hdash by done;
    (split; [reflexivity|]); simpl;
    rewrite lookup_insert_eq, (lookup_insert_ne _ "tabStrip" "input") by done;
    simpl; unfold Actions.showTabStrip, Actions.hideTabStrip;
    rewrite ?lookup_insert_eq; simpl.
  - done.
  - rewrite orb_false_r. split; [done|]. by destruct (uri_is_null _).
Qed.

(** The focus and blur events of the document set [windowFocused] and
    leave everything else that is shown as it was. *)
Theorem document_focus_events (root : gmap string value) (r : rendered) :
  render (VMap root) = Some r →
  (onDocumentFocus (VMap root)
     = Some (VMap (<["isDocumentFocused" := VBool true]> root))
   ∧ render (VMap (<["isDocumentFocused" := VBool true]> root))
     = Some (with_windowFocused true r))
  ∧ (onDocumentBlur (VMap root)
       = Some (VMap (<["isDocumentFocused" := VBool false]> root))
     ∧ render (VMap (<["isDocumentFocused" := VBool false]> root))
       = Some (with_windowFocused false r)).
Proof.
  rewrite render_root.
  destruct (root !! "webViewers") as [[ | | | |items| ]|] eqn:Hitems; try done.
  destruct (has_get (root !! "dashboard")) eqn:Hdash; try done.
  intros [= <-].
  split; (split; [reflexivity|]);
    rewrite render_root, (lookup_insert_ne _ _ "webViewers"), Hitems,
      (lookup_insert_ne _ _ "dashboard"), Hdash by done;
    simpl; by rewrite lookup_insert_eq, !lookup_insert_ne by done.
Qed.

End handlers.

Section banner.
Context `{!Component.Find, !Viewer, !Dashboard}.
Import Component.

(** The update banner is active after the app-update event, and never
    right after a restart from the session saved at unload. *)
Theorem update_banner_resets (root rfa : gmap string value) (r : rendered)
    (localStorage : gmap string string) (hasFocus : bool) :
  session_state root rfa →
  render (VMap root) = Some r →
  ∃ root' r' stored state r'',
    onAppUpdateAvailable (VMap root) = Some (VMap root')
    ∧ render (VMap root') = Some r'
    ∧ appupdatebanner_active r' = true
    ∧ onDocumentUnload (VMap root') localStorage = Normal stored
    ∧ Index.initialState stored hasFocus = Normal state
    ∧ render state = Some r''
    ∧ appupdatebanner_active r'' = false
    ∧ isDashboardActive r'' = isDashboardActive r.
Proof.
  intros Hrfa. rewrite render_root.
  destruct (root !! "webViewers") as [[ | | | |items| ]|] eqn:Hitems; try done.
  destruct (has_get (root !! "dashboard")) eqn:Hdash; try done.
  intros [= <-].
  assert (session_state (<["appUpdateAvailable" := VBool true]> root) rfa)
    as Hrfa'.
  { unfold session_state. by rewrite lookup_insert_ne. }
  eexists _, _, _, _, _.
  split; [reflexivity|].
  split.
  { by rewrite render_root, (lookup_insert_ne _ _ "webViewers"), Hitems,
      (lookup_insert_ne _ _ "dashboard"), Hdash by done. }
  split; [simpl; by rewrite lookup_insert_eq|].
  split; [by apply writeSession_saved|].
  split; [unfold Index.initialState; by rewrite readSession_saved|].
  split.
  - rewrite render_root. unfold restored.
    by rewrite !(lookup_insert_ne _ _ "webViewers"), Hitems,
      !(lookup_insert_ne _ _ "dashboard"), Hdash by done.
  - simpl. rewrite (lookup_insert_ne _ "rfa" "appUpdateAvailable") by done.
    by rewrite lookup_insert_eq.
Qed.

End banner.

Section rendered_samples.
Import Component.

Lemma render_dashboard_witness :
  ∃ r, @render sample_find (VMap sample_root) = Some r
       ∧ isDashboardActive r = true
       ∧ showtabstrip r = true ∧ scrollable r = false
       ∧ tabstripkillzone_hidden r = true
       ∧ dashboard_hidden r = false ∧ webViewers_hidden r = true.
Proof.
  eexists. split; [reflexivity|]. split; [reflexivity|].
  exact (proj1 (@render_dashboard sample_find (VMap sample_root) _ eq_refl)
           eq_refl).
Defined.

Lemma render_exclusive_witness :
  ∃ r, @render sample_find (VMap sample_page_root) = Some r
       ∧ tabstripkillzone_hidden r = false
       ∧ showtabstrip r = true ∧ isAwesomebarActive r = false
       ∧ isDashboardActive r = false ∧ scrollable r = false.
Proof.
  eexists. split; [reflexivity|]. split; [reflexivity|].
  exact (proj2 (@render_exclusive sample_find (VMap sample_page_root) _
                  eq_refl) eq_refl).
Defined.

Lemma accel_l_focuses_awesomebar_witness :
  ∃ root' r',
    onNavigation_accel_l (VMap sample_page_root) = Some (VMap root')
    ∧ @render sample_find (VMap root') = Some r'
    ∧ isAwesomebarActive r' = true
    ∧ scrollable r' = false
    ∧ tabstripkillzone_hidden r' = true
    ∧ showtabstrip r' = false.
Proof.
  destruct (@accel_l_focuses_awesomebar sample_find sample_page_root
              {[ "value" := VStr ""; "isFocused" := VBool false ]} _
              eq_refl eq_refl)
    as (r' & H1 & H2 & H3 & H4 & H5 & H6 & H7).
  eexists; exists r'.
  split; [exact H1|]. split; [exact H2|]. split; [exact H3|].
  split; [exact H4|]. split; [exact H5|exact H7].
Defined.

Lemma tab_strip_keys_witness :
  ∃ root' r',
    onTabStripKeyUp (VMap sample_page_root) = Some (VMap root')
    ∧ @render sample_find (VMap root') = Some r'
    ∧ showtabstrip r' = false
    ∧ tabstripkillzone_hidden r' = true.
Proof.
  destruct (proj2 (@tab_strip_keys sample_find sample_page_root
                     {[ "isActive" := VBool true ]} _ eq_refl eq_refl))
    as (root' & r' & H1 & H2 & H3 & H4 & H5).
  exists root', r'.
  split; [exact H1|]. split; [exact H3|]. split; [exact H4|exact H5].
Defined.

Lemma update_banner_resets_witness :
  ∃ root' r' stored state r'',
    onAppUpdateAvailable (VMap sample_page_root) = Some (VMap root')
    ∧ @render sample_find (VMap root') = Some r'
    ∧ appupdatebanner_active r' = true
    ∧ onDocumentUnload (VMap root') ∅ = Normal stored
    ∧ @Index.initialState Sample.viewer Sample.dashboard stored true
      = Normal state
    ∧ @render sample_find state = Some r''
    ∧ appupdatebanner_active r'' = false.
Proof.
  destruct (@update_banner_resets sample_find Sample.viewer Sample.dashboard
              sample_page_root {[ "id" := VNum 7 ]} _ ∅ true
              eq_refl eq_refl)
    as (root' & r' & stored & state & r'' & H1 & H2 & H3 & H4 & H5 & H6
        & H7 & H8).
  exists root', r', stored, state, r''.
  split; [exact H1|]. split; [exact H2|]. split; [exact H3|].
  split; [exact H4|]. split; [exact H5|]. split; [exact H6|exact H7].
Defined.

Lemma document_focus_events_witness :
  ∃ r,
    @render sample_find (VMap sample_root) = Some r
    ∧ onDocumentBlur (VMap sample_root)
      = Some (VMap (<["isDocumentFocused" := VBool false]> sample_root))
    ∧ @render sample_find
        (VMap (<["isDocumentFocused" := VBool false]> sample_root))
      = Some (with_windowFocused false r).
Proof.
  eexists. split; [reflexivity|].
  exact (proj2 (@document_focus_events sample_find sample_root _ eq_refl)).
Defined.

End rendered_samples.

(** ** More of [browser.js]: the deck *)


(** On a deck whose arrangement is empty, [switchTab.toLast] and
    [switchTab.toDashboard] change nothing. *)
Theorem switchTab_empty `{!Deck.Ops} (items : list value) :
  Deck.arrange items = [] →
  Browser.toLast items = items ∧ Browser.toDashboard items = items.
Proof.
  intros Hempty. unfold Browser.toLast, Browser.toDashboard, Browser.toIndex.
  by rewrite Hempty.
Qed.

Lemma switchTab_empty_witness :
  @Browser.toLast Sample.deck [] = [] ∧ @Browser.toDashboard Sample.deck [] = [].
Proof. exact (@switchTab_empty Sample.deck [] eq_refl). Defined.
